(** * Shopify order export to MOVA sheet: the conversion core

    A shallow embedding of [services/orderLogic.ts] (field normalizers,
    order aggregation, shipping-threshold rule, 29-column projection) and of
    the boundary checks of [services/csvParser.ts], with the properties the
    specification states about them.

    Strings are JavaScript strings: finite sequences of UTF-16 code units.
    Numbers are JavaScript numbers: IEEE 754 binary64, here the kernel's
    primitive floats, so that [NaN], signed zeros and rounding are those of
    the program. *)

From Stdlib Require Import ZArith NArith List Bool Lia Ascii String Floats.
From stdpp Require Import base list.
Import ListNotations.

(** ** The JavaScript platform: strings and numbers *)

Module JS.

Abbreviation jsstring := (list N).

(** *** String literals

    The source file is UTF-8; a literal of the program is written here as the
    same text and decoded to its UTF-16 code units. *)

Definition bytes (s : string) : list N :=
  List.map N_of_ascii (list_ascii_of_string s).

Fixpoint utf16_of_utf8 (l : list N) : jsstring :=
  match l with
  | [] => []
  | b0 :: l1 =>
    if (b0 <? 0x80)%N then b0 :: utf16_of_utf8 l1
    else match l1 with
    | [] => [0xFFFD%N]
    | b1 :: l2 =>
      if (b0 <? 0xE0)%N
      then ((b0 - 0xC0) * 64 + (b1 - 0x80))%N :: utf16_of_utf8 l2
      else match l2 with
      | [] => [0xFFFD%N]
      | b2 :: l3 =>
        if (b0 <? 0xF0)%N
        then ((b0 - 0xE0) * 4096 + (b1 - 0x80) * 64 + (b2 - 0x80))%N
               :: utf16_of_utf8 l3
        else match l3 with
        | [] => [0xFFFD%N]
        | b3 :: l4 =>
          let cp := ((b0 - 0xF0) * 262144 + (b1 - 0x80) * 4096
                     + (b2 - 0x80) * 64 + (b3 - 0x80))%N in
          let v := (cp - 0x10000)%N in
          (0xD800 + v / 1024)%N :: (0xDC00 + v mod 1024)%N :: utf16_of_utf8 l4
        end
      end
    end
  end.

Definition lit (s : string) : jsstring := utf16_of_utf8 (bytes s).

(** *** Truthiness and [||] on [string | undefined] *)

(** A property read yields a string or [undefined]; only the empty string and
    [undefined] are falsy. *)
Definition truthy (v : option jsstring) : bool :=
  match v with
  | Some (_ :: _) => true
  | _ => false
  end.

(** [a || b] where both sides are [string | undefined]. *)
Definition or_else (a b : option jsstring) : option jsstring :=
  if truthy a then a else b.

(** [a || 'text'] where the right side is a string literal. *)
Definition or_lit (a : option jsstring) (d : jsstring) : jsstring :=
  match a with
  | Some (c :: s) => c :: s
  | _ => d
  end.

(** *** Character classes *)

(** [\d] without the unicode flag: the ten ASCII digits. *)
Definition isDigit (c : N) : bool := ((48 <=? c) && (c <=? 57))%N.

(** [\s], and the characters [String.prototype.trim] removes: WhiteSpace and
    LineTerminator of ECMAScript. *)
Definition isWhiteSpace (c : N) : bool :=
  ((9 <=? c) && (c <=? 13)
   || (c =? 32) || (c =? 0xA0) || (c =? 0x1680)
   || (0x2000 <=? c) && (c <=? 0x200A)
   || (c =? 0x2028) || (c =? 0x2029) || (c =? 0x202F) || (c =? 0x205F)
   || (c =? 0x3000) || (c =? 0xFEFF))%N.

(** [[^\n\r]] *)
Definition notLineBreak (c : N) : bool := negb ((c =? 10) || (c =? 13))%N.

(** *** String methods *)

Fixpoint takeWhile (p : N -> bool) (s : jsstring) : jsstring :=
  match s with
  | c :: s' => if p c then c :: takeWhile p s' else []
  | [] => []
  end.

Fixpoint dropWhile (p : N -> bool) (s : jsstring) : jsstring :=
  match s with
  | c :: s' => if p c then dropWhile p s' else s
  | [] => []
  end.

Definition trimStart (s : jsstring) : jsstring := dropWhile isWhiteSpace s.
Definition trimEnd (s : jsstring) : jsstring := rev (dropWhile isWhiteSpace (rev s)).
Definition trim (s : jsstring) : jsstring := trimEnd (trimStart s).

Fixpoint startsWith (s p : jsstring) {struct p} : bool :=
  match p, s with
  | [], _ => true
  | a :: p', b :: s' => (a =? b)%N && startsWith s' p'
  | _ :: _, [] => false
  end.

(** [s.substring(n)] for [n] within the string. *)
Definition substring (s : jsstring) (n : nat) : jsstring := drop n s.

(** [toLowerCase] on the ASCII letters. Code units outside ASCII are left in
    place: the Unicode mapping sends none of them to a letter of the word
    the program compares the result with (the only ASCII letters reached from
    outside ASCII are [k] and [i]). *)
Definition lowerUnit (c : N) : N :=
  if ((65 <=? c) && (c <=? 90))%N then (c + 32)%N else c.

Definition toLowerCase (s : jsstring) : jsstring := List.map lowerUnit s.

Fixpoint streq (a b : jsstring) : bool :=
  match a, b with
  | [], [] => true
  | x :: a', y :: b' => (x =? y)%N && streq a' b'
  | _, _ => false
  end.

(** [parts.join(sep)] *)
Fixpoint join (sep : jsstring) (parts : list jsstring) : jsstring :=
  match parts with
  | [] => []
  | [p] => p
  | p :: rest => p ++ sep ++ join sep rest
  end.

(** The distinct strings of a list, in the order of their first occurrence. *)
Fixpoint distinct (ks : list jsstring) : list jsstring :=
  match ks with
  | [] => []
  | k :: rest => k :: List.filter (fun k' => negb (streq k k')) (distinct rest)
  end.

(** *** Numbers *)

Open Scope float_scope.

(** The Number nearest to an integer (ties to even). *)
Definition ofZ (z : Z) : float := SF2Prim (binary_normalize 53 1024 z 0 false).

(** The Number nearest to [n / d], for [0 < n] and [0 < d]: a quotient with
    more than 64 significant bits and a sticky bit, then one rounding. *)
Definition ofRatio (n d : Z) : float :=
  let s := Z.max 0 (66 + Z.log2 d - Z.log2 n) in
  let q := (n * 2 ^ s / d)%Z in
  let r := (n * 2 ^ s mod d)%Z in
  let m := (2 * q + (if (r =? 0)%Z then 0 else 1))%Z in
  SF2Prim (binary_normalize 53 1024 m (- s - 1) false).

(** The Number nearest to [m * 10 ^ e], for [0 <= m]. *)
Definition ofDecimal (m e : Z) : float :=
  if (m =? 0)%Z then 0
  else if (0 <=? e)%Z then ofZ (m * 10 ^ e)
  else ofRatio m (10 ^ (- e)).

Definition digitsValue (ds : jsstring) : Z :=
  fold_left (fun acc d => (acc * 10 + Z.of_N (d - 48))%Z) ds 0%Z.

(** An optional sign: whether it is [-], and the rest. *)
Definition splitSign (s : jsstring) : bool * jsstring :=
  match s with
  | 45%N :: r => (true, r)
  | 43%N :: r => (false, r)
  | _ => (false, s)
  end.

Definition withSign (neg : bool) (x : float) : float := if neg then - x else x.

(** [parseInt(s, 10)]: leading white space, an optional sign, then the longest
    run of decimal digits; [NaN] when that run is empty. *)
Definition parseInt (input : jsstring) : float :=
  let '(neg, s) := splitSign (trimStart input) in
  match takeWhile isDigit s with
  | [] => nan
  | ds => withSign neg (ofZ (digitsValue ds))
  end.

(** The exponent part [e|E (+|-)? digits] at the head of [s], when complete. *)
Definition exponentPart (s : jsstring) : Z :=
  match s with
  | c :: r =>
    if ((c =? 101) || (c =? 69))%N then
      let '(neg, r') := splitSign r in
      match takeWhile isDigit r' with
      | [] => 0%Z
      | ds => if neg then (- digitsValue ds)%Z else digitsValue ds
      end
    else 0%Z
  | [] => 0%Z
  end.

(** [parseFloat(s)]: leading white space, then the longest prefix that is a
    StrDecimalLiteral; [NaN] when there is none. *)
Definition parseFloat (input : jsstring) : float :=
  let '(neg, s) := splitSign (trimStart input) in
  if startsWith s (lit "Infinity") then withSign neg infinity
  else
    let ip := takeWhile isDigit s in
    let r1 := dropWhile isDigit s in
    let '(fp, r2) :=
      match r1 with
      | 46%N :: r => (takeWhile isDigit r, dropWhile isDigit r)
      | _ => ([], r1)
      end in
    match ip ++ fp with
    | [] => nan
    | ds =>
      withSign neg
        (ofDecimal (digitsValue ds) (exponentPart r2 - Z.of_nat (length fp)))
    end.

Close Scope float_scope.

End JS.

(** ** Rows of the order export *)

Module Row.

Import JS.

(** A record of the tokenizer: the own properties of an object in creation
    order, header name and field text. The program reads fields by their
    header names only, and every such field is a string. *)
Abbreviation t := (list (jsstring * jsstring)).

(** [row[key]]: the property, or [undefined]. *)
Fixpoint get (row : t) (key : jsstring) : option jsstring :=
  match row with
  | [] => None
  | (k, v) :: rest => if streq k key then Some v else get rest key
  end.

(** [key in row] *)
Definition has (row : t) (key : jsstring) : bool :=
  match get row key with Some _ => true | None => false end.

(** An array index as a property name: a canonical decimal numeral below
    [2^32 - 1]. *)
Definition arrayIndex (k : jsstring) : bool :=
  match k with
  | [] => false
  | c :: r =>
    forallb isDigit k && (negb (c =? 48)%N || (length r =? 0)%nat)
    && (length k <=? 10)%nat && (digitsValue k <? 4294967295)%Z
  end.

Fixpoint insertIndex (k : jsstring) (ks : list jsstring) : list jsstring :=
  match ks with
  | [] => [k]
  | k' :: rest =>
    if (digitsValue k <=? digitsValue k')%Z then k :: ks
    else k' :: insertIndex k rest
  end.

(** [Object.keys(row)]: array indices in ascending order, then the other
    names in creation order; a name is a property once. *)
Definition keys (row : t) : list jsstring :=
  let ks := distinct (List.map fst row) in
  fold_right insertIndex [] (List.filter arrayIndex ks)
  ++ List.filter (fun k => negb (arrayIndex k)) ks.

End Row.

(** ** services/orderLogic.ts *)

Module OrderLogic.

Import JS.
Open Scope float_scope.

(** *** Data model (types.ts) *)

Record ProcessedItem := {
  sku : jsstring;
  name : jsstring;
  quantity : float;
  price : float;
  isSystemAddon : option bool;   (* isSystemAddon?: boolean *)
}.

Module Customer.
Record t := {
  name : jsstring;
  phone : jsstring;
  address : jsstring;
  city : jsstring;
  zip : jsstring;
}.
End Customer.

(** [email] and [createdAt] are copied from the row without a default, so at
    run time they may be [undefined]. *)
Record ProcessedOrder := {
  orderId : jsstring;
  shopifyId : jsstring;
  paymentRef : jsstring;
  carrierId : jsstring;
  taxId : option jsstring;
  companyName : option jsstring;
  email : option jsstring;
  createdAt : option jsstring;
  shippingMethod : jsstring;
  customer : Customer.t;
  items : list ProcessedItem;
  subtotal : float;
  originalSubtotal : float;
  shippingFee : float;
  total : float;
  warnings : list jsstring;
}.

(** [order.items = its] and [order.subtotal = x] on a record. *)
Definition set_items (its : list ProcessedItem) (o : ProcessedOrder) : ProcessedOrder :=
  {| orderId := orderId o; shopifyId := shopifyId o; paymentRef := paymentRef o;
     carrierId := carrierId o; taxId := taxId o; companyName := companyName o;
     email := email o; createdAt := createdAt o; shippingMethod := shippingMethod o;
     customer := customer o; items := its; subtotal := subtotal o;
     originalSubtotal := originalSubtotal o; shippingFee := shippingFee o;
     total := total o; warnings := warnings o |}.

Definition set_subtotal (x : float) (o : ProcessedOrder) : ProcessedOrder :=
  {| orderId := orderId o; shopifyId := shopifyId o; paymentRef := paymentRef o;
     carrierId := carrierId o; taxId := taxId o; companyName := companyName o;
     email := email o; createdAt := createdAt o; shippingMethod := shippingMethod o;
     customer := customer o; items := items o; subtotal := x;
     originalSubtotal := originalSubtotal o; shippingFee := shippingFee o;
     total := total o; warnings := warnings o |}.

(** A cell of an export row: [string | number], or [undefined] where the
    order field copied into it is. *)
Inductive Cell :=
  | CStr (s : jsstring)
  | CNum (x : float)
  | CUndefined.

Abbreviation MovaExcelRow := (list Cell).

(** *** Field normalizers *)

(** [cleanPhone]; the argument is [undefined] when neither phone column is
    present. *)
Definition cleanPhone (phone : option jsstring) : jsstring :=
  match phone with
  | Some (c :: s) =>
    let p := List.filter isDigit (c :: s) in
    let p := if startsWith p (lit "886") then lit "0" ++ substring p 3 else p in
    let p := if startsWith p (lit "9") && (length p =? 9)%nat then lit "0" ++ p else p in
    p
  | _ => []
  end.

Definition formatAddress (row : Row.t) : jsstring :=
  let shippingStreet := Row.get row (lit "Shipping Street") in
  let billingStreet := Row.get row (lit "Billing Street") in
  match shippingStreet with
  | Some (c :: s) => trim (c :: s)
  | _ => or_lit billingStreet []
  end.

(** The three patterns of [parseInvoiceInfo] have one shape: a literal key,
    [\s*], then a captured group [C+] for a character class [C]. *)

(** [C+] at the head of [s], greedy: the capture, when non-empty. *)
Definition classPlus (C : N -> bool) (s : jsstring) : option jsstring :=
  match takeWhile C s with
  | [] => None
  | g => Some g
  end.

(** [\s*(C+)] at the head of [s]: [\s*] is greedy and gives back one
    character at a time when the group fails after it. *)
Fixpoint spacesThenGroup (C : N -> bool) (s : jsstring) : option jsstring :=
  match s with
  | c :: s' =>
    if isWhiteSpace c then
      match spacesThenGroup C s' with
      | Some g => Some g
      | None => classPlus C s
      end
    else classPlus C s
  | [] => None
  end.

(** [s.match(/key\s*(C+)/)]: the group of the leftmost match, or [None] for
    [null]. *)
Fixpoint matchPair (key : jsstring) (C : N -> bool) (s : jsstring) : option jsstring :=
  let here :=
    if startsWith s key then spacesThenGroup C (drop (length key) s) else None in
  match here with
  | Some g => Some g
  | None =>
    match s with
    | _ :: s' => matchPair key C s'
    | [] => None
    end
  end.

Definition invoiceTypeKey : jsstring := lit "發票種類(InvoiceType):".
Definition companyIdKey : jsstring := lit "統一編號(CompanyId):".
Definition companyNameKey : jsstring := lit "公司名稱(CompanyName):".

(** [parseInvoiceInfo]: the object [{ taxId, companyName }] as a pair. *)
Definition parseInvoiceInfo (attrs : option jsstring) : jsstring * jsstring :=
  match attrs with
  | Some (c :: s) =>
    let attrs := c :: s in
    let typeMatch := matchPair invoiceTypeKey notLineBreak attrs in
    let invoiceType :=
      match typeMatch with
      | Some g => toLowerCase (trim g)
      | None => []
      end in
    if negb (streq invoiceType (lit "company")) then ([], [])
    else
      let taxIdMatch := matchPair companyIdKey isDigit attrs in
      let nameMatch := matchPair companyNameKey notLineBreak attrs in
      (match taxIdMatch with Some g => trim g | None => [] end,
       match nameMatch with Some g => trim g | None => [] end)
  | _ => ([], [])
  end.

(** *** Order aggregation *)

(** [Map<string, ProcessedOrder>]: the entries in insertion order. The map
    holds the only reference to each order, so a mutation through
    [orderMap.get(orderId)] is an update of the entry in place. *)
Module OrderMap.

Abbreviation t := (list (jsstring * ProcessedOrder)).

Fixpoint has (m : t) (key : jsstring) : bool :=
  match m with
  | [] => false
  | (k, _) :: rest => streq k key || has rest key
  end.

Fixpoint get (m : t) (key : jsstring) : option ProcessedOrder :=
  match m with
  | [] => None
  | (k, v) :: rest => if streq k key then Some v else get rest key
  end.

(** [m.set(key, value)]: a present key keeps its place. *)
Fixpoint set (m : t) (key : jsstring) (value : ProcessedOrder) : t :=
  match m with
  | [] => [(key, value)]
  | (k, v) :: rest =>
    if streq k key then (k, value) :: rest else (k, v) :: set rest key value
  end.

(** A mutation [f] of the object stored under [key]. *)
Fixpoint modify (m : t) (key : jsstring) (f : ProcessedOrder -> ProcessedOrder) : t :=
  match m with
  | [] => []
  | (k, v) :: rest =>
    if streq k key then (k, f v) :: rest else (k, v) :: modify rest key f
  end.

End OrderMap.

(** The object literal stored on the first row of an order. *)
Definition newOrder (orderId : jsstring) (row : Row.t) : ProcessedOrder :=
  let shippingName :=
    or_lit (or_else (Row.get row (lit "Shipping Name")) (Row.get row (lit "Billing Name")))
           (lit "Unknown") in
  let shippingPhone :=
    cleanPhone (or_else (Row.get row (lit "Shipping Phone")) (Row.get row (lit "Billing Phone"))) in
  let shippingMethod := or_lit (Row.get row (lit "Shipping Method")) [] in
  let paymentRef :=
    or_lit (or_else (Row.get row (lit "Payment References"))
                    (Row.get row (lit "Payment Reference"))) [] in
  let carrierId := or_lit (Row.get row (lit "Email")) [] in
  let info := parseInvoiceInfo (Row.get row (lit "Note Attributes")) in
  let taxId := fst info in
  let companyName := snd info in
  {| orderId := orderId;
     shopifyId := or_lit (Row.get row (lit "Id")) [];
     paymentRef := paymentRef;
     carrierId := carrierId;
     taxId := Some taxId;
     companyName := Some companyName;
     email := Row.get row (lit "Email");
     createdAt := Row.get row (lit "Created at");
     shippingMethod := shippingMethod;
     customer :=
       {| Customer.name := shippingName;
          Customer.phone := shippingPhone;
          Customer.address := formatAddress row;
          Customer.city :=
            or_lit (or_else (Row.get row (lit "Shipping City"))
                            (Row.get row (lit "Billing City"))) [];
          Customer.zip :=
            or_lit (or_else (Row.get row (lit "Shipping Zip"))
                            (Row.get row (lit "Billing Zip"))) [] |};
     items := [];
     subtotal := 0;
     originalSubtotal := parseFloat (or_lit (Row.get row (lit "Subtotal")) (lit "0"));
     shippingFee := parseFloat (or_lit (Row.get row (lit "Shipping")) (lit "0"));
     total := parseFloat (or_lit (Row.get row (lit "Total")) (lit "0"));
     warnings := [] |}.

(** The line item a row with the line-item name [name] stands for. *)
Definition lineItem (row : Row.t) (name : jsstring) : ProcessedItem :=
  let qty := parseInt (or_lit (Row.get row (lit "Lineitem quantity")) (lit "0")) in
  let price := parseFloat (or_lit (Row.get row (lit "Lineitem price")) (lit "0")) in
  let sku := Row.get row (lit "Lineitem sku") in
  {| sku := or_lit sku []; name := name; quantity := qty; price := price;
     isSystemAddon := None |}.

Definition push (item : ProcessedItem) (order : ProcessedOrder) : ProcessedOrder :=
  set_items (items order ++ [item]) order.

(** The body of [rows.forEach]. *)
Definition addRow (orderMap : OrderMap.t) (row : Row.t) : OrderMap.t :=
  match Row.get row (lit "Name") with
  | Some (c :: s) =>
    let orderId := c :: s in
    let orderMap :=
      if OrderMap.has orderMap orderId then orderMap
      else OrderMap.set orderMap orderId (newOrder orderId row) in
    match Row.get row (lit "Lineitem name") with
    | Some (c' :: s') =>
      OrderMap.modify orderMap orderId (push (lineItem row (c' :: s')))
    | _ => orderMap
    end
  | _ => orderMap
  end.

(** *** Business rules *)

Definition shippingAddon : ProcessedItem :=
  {| sku := lit "Z90001"; name := lit "運費"; quantity := 1; price := 120;
     isSystemAddon := Some true |}.

(** [order.items.reduce((sum, item) => sum + (item.price * item.quantity), 0)] *)
Definition itemsTotal (its : list ProcessedItem) : float :=
  fold_left (fun sum item => sum + price item * quantity item) its 0.

(** The body of [orderMap.forEach], up to the push to the result. *)
Definition applyRules (order : ProcessedOrder) : ProcessedOrder :=
  let calculatedSubtotal := itemsTotal (items order) in
  let order := set_subtotal calculatedSubtotal order in
  if subtotal order <? 1000 then push shippingAddon order else order.

Definition processOrders (rows : list Row.t) : list ProcessedOrder :=
  let orderMap := fold_left addRow rows [] in
  fold_left (fun processedOrders entry => processedOrders ++ [applyRules (snd entry)])
            orderMap [].

(** *** Export projection *)

Definition MOVA_HEADERS : MovaExcelRow :=
  List.map (fun h => CStr (lit h))
    [ "通路訂單編號"; "收貨人"; "聯絡電話"; "送貨地址"; "備註"; "品號"; "金額合計";
      "數量"; "單價"; "出貨倉庫"; "統一編號"; "代收貨款"; "業務員"; "來回件"; "附件";
      "運輸方式"; "指定效期"; "客戶品號"; "ERP客戶代號"; "是否指定倉庫"; "發票號碼";
      "載具號碼"; "發票開立日期"; "發票開立時間"; "統一編號(發票)"; "統一編號抬頭";
      "通路訂單序號"; "網站訂單編號"; "Email" ]%string.

Definition cellOf (v : option jsstring) : Cell :=
  match v with
  | Some s => CStr s
  | None => CUndefined
  end.

Close Scope float_scope.

(** The row built for one item: [Array(29).fill('')], then the assignments. *)
Definition movaRow (order : ProcessedOrder) (item : ProcessedItem) : MovaExcelRow :=
  let row := replicate 29 (CStr []) in
  let row := <[0 := CStr (match paymentRef order with
                          | [] => orderId order
                          | ref => ref
                          end)]> row in
  let row := <[1 := CStr (Customer.name (customer order))]> row in
  let row := <[2 := CStr (Customer.phone (customer order))]> row in
  let row := <[3 := CStr (Customer.address (customer order))]> row in
  let row := <[4 := CStr []]> row in
  let row := <[5 := CStr (sku item)]> row in
  let row := <[6 := CNum (price item * quantity item)%float]> row in
  let row := <[7 := CNum (quantity item)]> row in
  let row := <[8 := CNum (price item)]> row in
  let row := <[9 := CStr (lit "XF1400")]> row in
  let row := <[10 := CStr []]> row in
  let row := <[11 := CStr []]> row in
  let row := <[12 := CStr (lit "6301")]> row in
  let row := <[13 := CStr (lit "N")]> row in
  let row := <[14 := CStr (lit "N")]> row in
  let row := <[15 := CStr (lit "2")]> row in
  let row := <[16 := CStr []]> row in
  let row := <[17 := CStr (sku item)]> row in
  let row := <[18 := CStr (lit "F91000000")]> row in
  let row := <[19 := CStr (lit "N")]> row in
  let row := <[20 := CStr []]> row in
  let row := <[21 := CStr (carrierId order)]> row in
  let row := <[22 := CStr []]> row in
  let row := <[23 := CStr []]> row in
  let row := <[24 := CStr (or_lit (taxId order) [])]> row in
  let row := <[25 := CStr (or_lit (companyName order) [])]> row in
  let row := <[26 := CStr (orderId order)]> row in
  let row := <[27 := CStr (shopifyId order)]> row in
  let row := <[28 := cellOf (email order)]> row in
  row.

Definition convertToMovaRows (orders : list ProcessedOrder) : list MovaExcelRow :=
  fold_left
    (fun exportRows order =>
       fold_left (fun exportRows item => exportRows ++ [movaRow order item])
                 (items order) exportRows)
    orders [MOVA_HEADERS].

End OrderLogic.

(** ** services/csvParser.ts *)

Module CsvParser.

Import JS.

(** What the tokenizer reports: [complete] with the records and its own
    per-row warnings, or [error]. *)
Inductive ParseEvent :=
  | Complete (data : list Row.t) (errors : list jsstring)
  | Error (message : jsstring).

Inductive Promise :=
  | Resolved (rows : list Row.t)
  | Rejected (message : jsstring).

Definition emptyMessage : jsstring := lit "檔案內容為空".

Definition missingNameMessage (detectedKeys : jsstring) : jsstring :=
  lit "CSV 格式錯誤: 找不到 " ++ [34%N] ++ lit "Name" ++ [34%N]
  ++ lit " 欄位。請確認上傳的是 Shopify 訂單匯出檔。" ++ [10%N]
  ++ lit "偵測到的欄位: " ++ detectedKeys.

(** The warnings of a completed parse are logged and nothing else. *)
Definition parseShopifyCSV (ev : ParseEvent) : Promise :=
  match ev with
  | Complete rows _ =>
    match rows with
    | [] => Rejected emptyMessage
    | row0 :: _ =>
      if negb (Row.has row0 (lit "Name")) then
        let detectedKeys := join (lit ", ") (Row.keys row0) in
        Rejected (missingNameMessage detectedKeys)
      else Resolved rows
    end
  | Error message => Rejected message
  end.

End CsvParser.

(** ** App.tsx: the conversion run *)

Module App.

Import JS OrderLogic CsvParser.

Inductive Outcome :=
  | Converted (orders : list ProcessedOrder) (excelRows : list MovaExcelRow)
  | Failed (message : jsstring).

(** The [try] and [catch] of [handleFileUpload]: parse, aggregate, project;
    a rejection is shown with its message, or a fixed text when it has none. *)
Definition convert (ev : ParseEvent) : Outcome :=
  match parseShopifyCSV ev with
  | Resolved rawRows =>
    let orders := processOrders rawRows in
    Converted orders (convertToMovaRows orders)
  | Rejected message =>
    Failed (match message with
            | [] => lit "處理檔案時發生未知錯誤"
            | _ => message
            end)
  end.

(** The state of the component: the five [useState] cells. *)
Module Stats.
Record t := { orders : Z; items : Z }.
End Stats.

Record State := {
  dateToken : jsstring;
  isProcessing : bool;
  error : option jsstring;                       (* string | null *)
  stats : option Stats.t;                        (* { orders, items } | null *)
  processedData : option (list MovaExcelRow);    (* any[] | null *)
}.

Definition initialState : State :=
  {| dateToken := []; isProcessing := false; error := None; stats := None;
     processedData := None |}.

(** [handleDateTokenChange]: the typed text without what [\D] matches. *)
Definition handleDateTokenChange (value : jsstring) (st : State) : State :=
  {| dateToken := List.filter isDigit value; isProcessing := isProcessing st;
     error := error st; stats := stats st; processedData := processedData st |}.

(** [token.match(/^\d{4,8}$/)]: the whole text is four to eight digits. *)
Definition matchesDateToken (token : jsstring) : bool :=
  forallb isDigit token && (4 <=? length token)%nat && (length token <=? 8)%nat.

Definition missingDateMessage : jsstring := lit "請先輸入日期 (例如: 202310)".

Definition badDateMessage : jsstring :=
  lit "日期格式錯誤，請輸入 4 到 8 位數字 (例如 YYYYMMDD)".

(** [handleFileUpload], from the change event to the end of [finally]. The
    chosen file stands for what its parse reports; [None] is a change event
    without a file. *)
Definition handleFileUpload (file : option ParseEvent) (st : State) : State :=
  match file with
  | None => st
  | Some ev =>
    match dateToken st with
    | [] =>
      {| dateToken := dateToken st; isProcessing := isProcessing st;
         error := Some missingDateMessage; stats := None; processedData := None |}
    | _ =>
      if negb (matchesDateToken (dateToken st)) then
        {| dateToken := dateToken st; isProcessing := isProcessing st;
           error := Some badDateMessage; stats := None; processedData := None |}
      else
        match convert ev with
        | Converted orders excelRows =>
          {| dateToken := dateToken st; isProcessing := false; error := None;
             stats := Some {| Stats.orders := Z.of_nat (length orders);
                              Stats.items := Z.max 0 (Z.of_nat (length excelRows) - 1) |};
             processedData := Some excelRows |}
        | Failed message =>
          {| dateToken := dateToken st; isProcessing := false; error := Some message;
             stats := None; processedData := None |}
        end
    end
  end.

(** [handleDownload]: the call of [generateAndDownloadExcel] it makes, as the
    pair of the file name and the data, or [None] when it returns early. *)
Definition handleDownload (st : State) : option (jsstring * list MovaExcelRow) :=
  match processedData st, dateToken st with
  | Some data, _ :: _ => Some (lit "MOVA訂單_" ++ dateToken st ++ lit ".xlsx", data)
  | _, _ => None
  end.

End App.

(** ** Vocabulary of the properties *)

Import JS OrderLogic CsvParser App.

(** The algorithm as the specification words it: strip, then the country
    code, else the bare nine-digit mobile number. *)
Definition phoneAsSpecified (phone : jsstring) : jsstring :=
  let digits := List.filter isDigit phone in
  if startsWith digits (lit "886") then lit "0" ++ drop 3 digits
  else if (length digits =? 9)%nat && startsWith digits (lit "9") then lit "0" ++ digits
  else digits.

(** Where [\s*(C+)] matched at the head of [s]: white space, then the group,
    which is not empty, lies in [C] and is not followed by a character of
    [C]. *)
Definition groupAt (C : N -> bool) (s g : jsstring) : Prop :=
  exists spaces after,
    s = spaces ++ g ++ after
    /\ forallb isWhiteSpace spaces = true
    /\ g <> [] /\ forallb C g = true
    /\ match after with [] => True | c :: _ => C c = false end.

(** Where [key\s*(C+)] matched in [s]. *)
Definition matchedAt (key : jsstring) (C : N -> bool) (s g : jsstring) : Prop :=
  exists before rest, s = before ++ key ++ rest /\ groupAt C rest g.

(** The text a pattern captured, trimmed; empty when it did not match. *)
Definition trimmedGroup (m : option jsstring) : jsstring :=
  match m with
  | Some g => trim g
  | None => []
  end.

(** The declared invoice type: the trimmed, lower-cased value of the
    InvoiceType pair, empty when there is no such pair. *)
Definition declaredType (attrs : jsstring) : jsstring :=
  toLowerCase (trimmedGroup (matchPair invoiceTypeKey notLineBreak attrs)).

(** The rows one order contributes. *)
Definition orderRows (order : ProcessedOrder) : list MovaExcelRow :=
  List.map (movaRow order) (items order).

(** The number of items of a list of orders. *)
Definition itemCount (orders : list ProcessedOrder) : nat :=
  list_sum (List.map (fun o => length (items o)) orders).

(** The order identifier a row is filed under, if any: rows whose [Name] is
    missing or empty are passed over. *)
Definition rowId (row : Row.t) : option jsstring :=
  match Row.get row (lit "Name") with
  | Some (c :: s) => Some (c :: s)
  | _ => None
  end.

(** The line item a row carries, if any. *)
Definition rowItem (row : Row.t) : option ProcessedItem :=
  match Row.get row (lit "Lineitem name") with
  | Some (c :: s) => Some (lineItem row (c :: s))
  | _ => None
  end.

(** The rows of an order, in input order. *)
Definition rowsOf (k : jsstring) (rows : list Row.t) : list Row.t :=
  List.filter (fun r => bool_decide (rowId r = Some k)) rows.

(** The identifiers of the input, each once, in the order first met. *)
Definition orderIds (rows : list Row.t) : list jsstring :=
  distinct (omap rowId rows).

(** The line items of an order, in input order. *)
Definition itemsOf (k : jsstring) (rows : list Row.t) : list ProcessedItem :=
  omap rowItem (rowsOf k rows).

(** The order as aggregation leaves it: the fields of its first row, the
    items of all its rows. *)
Definition aggregated (k : jsstring) (rows : list Row.t) : ProcessedOrder :=
  set_items (itemsOf k rows) (newOrder k (default [] (head (rowsOf k rows)))).

(** A map given by its keys and the order stored under each. *)
Definition entries (f : jsstring -> ProcessedOrder) (ks : list jsstring) : OrderMap.t :=
  List.map (fun k => (k, f k)) ks.

(** Whether the item is marked as injected by the rules. *)
Definition isAddon (item : ProcessedItem) : bool :=
  match isSystemAddon item with
  | Some true => true
  | _ => false
  end.

(** The real line items of an order: those not injected by the rules. *)
Definition realItems (order : ProcessedOrder) : list ProcessedItem :=
  List.filter (fun item => negb (isAddon item)) (items order).

(** An input whose single order sums to [price]: one row, one unit, with a
    source-reported subtotal of 5000. *)
Definition singleItemOrder (price : string) : list Row.t :=
  [ [ (lit "Name", lit "#1001"); (lit "Subtotal", lit "5000");
      (lit "Lineitem name", lit "Widget"); (lit "Lineitem sku", lit "A1");
      (lit "Lineitem quantity", lit "1"); (lit "Lineitem price", lit price) ] ].

(** Three rows of two orders, with two rows that name no order between
    them: one with an empty [Name], one without the field. *)
Definition interleavedRows : list Row.t :=
  [ [ (lit "Name", lit "#2"); (lit "Lineitem name", lit "b1"); (lit "Lineitem sku", lit "B1");
      (lit "Lineitem quantity", lit "1"); (lit "Lineitem price", lit "10") ];
    [ (lit "Name", []); (lit "Lineitem name", lit "x"); (lit "Lineitem sku", lit "X") ];
    [ (lit "Name", lit "#1"); (lit "Lineitem name", lit "a1"); (lit "Lineitem sku", lit "A1");
      (lit "Lineitem quantity", lit "1"); (lit "Lineitem price", lit "2000") ];
    [ (lit "Lineitem name", lit "y"); (lit "Lineitem sku", lit "Y") ];
    [ (lit "Name", lit "#2"); (lit "Lineitem name", lit "b2"); (lit "Lineitem sku", lit "B2");
      (lit "Lineitem quantity", lit "1"); (lit "Lineitem price", lit "20") ] ].

(** One order, one row: a line item whose quantity and price fields are
    empty, and no Subtotal, Shipping or Total column. *)
Definition blankNumbersRow : Row.t :=
  [ (lit "Name", lit "#1001"); (lit "Lineitem name", lit "Widget");
    (lit "Lineitem quantity", []); (lit "Lineitem price", []) ].

(** One order, one row, whose quantity and Subtotal fields hold text that is
    not a number. *)
Definition unparseableQuantityRow : Row.t :=
  [ (lit "Name", lit "#1001"); (lit "Lineitem name", lit "Widget");
    (lit "Lineitem quantity", lit "abc"); (lit "Lineitem price", lit "50");
    (lit "Subtotal", lit "n/a") ].


(** The line items of the rows that name an order, in input order. *)
Definition identifiedItems (rows : list Row.t) : list ProcessedItem :=
  omap (fun r => match rowId r with
                 | Some _ => rowItem r
                 | None => None
                 end) rows.

(** The columns of a row that make its line item. *)
Definition lineItemColumns : list jsstring :=
  [ lit "Lineitem name"; lit "Lineitem sku"; lit "Lineitem quantity"; lit "Lineitem price" ].

(** Whether the text begins with white space, and whether it ends with it. *)
Definition beginsWithSpace (s : jsstring) : bool :=
  match s with
  | c :: _ => isWhiteSpace c
  | [] => false
  end.

Definition endsWithSpace (s : jsstring) : bool := beginsWithSpace (rev s).

(** The orders the rules give the shipping addon to. *)
Definition belowThreshold (orders : list ProcessedOrder) : list ProcessedOrder :=
  List.filter (fun o => (subtotal o <? 1000)%float) orders.

(** Two rows of one order; the second differs from [repeatRow'] in its
    customer and e-mail columns only. *)
Definition firstRow : Row.t :=
  [ (lit "Name", lit "#1001"); (lit "Email", lit "a@b.c"); (lit "Shipping Name", lit "Ann");
    (lit "Lineitem name", lit "Widget"); (lit "Lineitem sku", lit "A1");
    (lit "Lineitem quantity", lit "1"); (lit "Lineitem price", lit "50") ].

Definition repeatRow : Row.t :=
  [ (lit "Name", lit "#1001"); (lit "Email", []); (lit "Shipping Name", []);
    (lit "Lineitem name", lit "Gadget"); (lit "Lineitem sku", lit "B2");
    (lit "Lineitem quantity", lit "2"); (lit "Lineitem price", lit "75") ].

Definition repeatRow' : Row.t :=
  [ (lit "Name", lit "#1001"); (lit "Email", lit "x@y.z"); (lit "Shipping Name", lit "Bob");
    (lit "Total", lit "9999");
    (lit "Lineitem name", lit "Gadget"); (lit "Lineitem sku", lit "B2");
    (lit "Lineitem quantity", lit "2"); (lit "Lineitem price", lit "75") ].

(** The state after typing a date, and after an upload in that state. *)
Definition datedState : State := handleDateTokenChange (lit "2023-10-27") initialState.

Definition uploadedState : State :=
  handleFileUpload (Some (Complete [firstRow; repeatRow] [])) datedState.

(** A file with a [Name] column in which no row names an order. *)
Definition unnamedRows : list Row.t :=
  [ [ (lit "Name", []); (lit "Lineitem name", lit "Widget") ];
    [ (lit "Name", []); (lit "Lineitem name", lit "Gadget") ] ].

(** One order in two rows. The first has a line item whose quantity and
    price fields are empty and no Subtotal, Shipping or Total column; the
    second has numbers in all of them. *)
Definition blankThenFilledRows : list Row.t :=
  [ blankNumbersRow;
    [ (lit "Name", lit "#1001"); (lit "Subtotal", lit "500"); (lit "Shipping", lit "60");
      (lit "Total", lit "560"); (lit "Lineitem name", lit "Gadget");
      (lit "Lineitem quantity", lit "2"); (lit "Lineitem price", lit "250") ] ].

(** An input of one order in two rows, with the quantities and prices given
    and a source-reported subtotal of 5000. *)
Definition twoItemOrder (quantity1 price1 quantity2 price2 : string) : list Row.t :=
  [ [ (lit "Name", lit "#1001"); (lit "Subtotal", lit "5000");
      (lit "Lineitem name", lit "Widget"); (lit "Lineitem sku", lit "A1");
      (lit "Lineitem quantity", lit quantity1); (lit "Lineitem price", lit price1) ];
    [ (lit "Name", lit "#1001");
      (lit "Lineitem name", lit "Gadget"); (lit "Lineitem sku", lit "B2");
      (lit "Lineitem quantity", lit quantity2); (lit "Lineitem price", lit price2) ] ].




(** ** Properties *)

(** *** The platform model on samples *)

Example parseFloat_samples :
  parseFloat (lit "0") = 0%float
  /\ parseFloat (lit "12.50") = 12.5%float
  /\ parseFloat (lit "  -999.5 TWD") = (-999.5)%float
  /\ parseFloat (lit "1.5e3") = 1500%float
  /\ parseFloat (lit ".25") = 0.25%float
  /\ parseFloat (lit "1,234.50") = 1%float
  /\ parseFloat (lit "abc") = nan
  /\ parseFloat (lit "Infinity") = infinity
  /\ parseFloat (lit ".") = nan
  /\ parseFloat [] = nan.
Proof. repeat split; vm_compute; reflexivity. Qed.

Example parseInt_samples :
  parseInt (lit "0") = 0%float
  /\ parseInt (lit "3") = 3%float
  /\ parseInt (lit " 12abc") = 12%float
  /\ parseInt (lit "2.9") = 2%float
  /\ parseInt (lit "-7") = (-7)%float
  /\ parseInt (lit "abc") = nan
  /\ parseInt [] = nan.
Proof. repeat split; vm_compute; reflexivity. Qed.

Example string_samples :
  lit "運費" = [0x904B; 0x8CBB]%N
  /\ trim (lit "  1 Main St  ") = lit "1 Main St"
  /\ trim ([0x3000; 9; 10]%N ++ lit "x" ++ [0xA0; 13]%N) = lit "x"
  /\ toLowerCase (lit "CoMPany") = lit "company"
  /\ join (lit ", ") [lit "Name"; lit "Email"; lit "Total"] = lit "Name, Email, Total"
  /\ distinct [lit "#2"; lit "#1"; lit "#2"; lit "#3"; lit "#1"] = [lit "#2"; lit "#1"; lit "#3"].
Proof. repeat split; vm_compute; reflexivity. Qed.

Example keys_samples :
  Row.keys [ (lit "Name", lit "#1"); (lit "10", []); (lit "Email", []); (lit "2", []);
             (lit "02", []) ]
  = [ lit "2"; lit "10"; lit "Name"; lit "Email"; lit "02" ].
Proof. vm_compute; reflexivity. Qed.

(** *** Strings *)

Lemma streq_eq (a b : jsstring) : streq a b = true <-> a = b.
Proof.
  revert b; induction a as [|x a IH]; intros [|y b]; simpl; try easy.
  rewrite andb_true_iff, N.eqb_eq, IH. split.
  - intros [-> ->]; reflexivity.
  - intros [= -> ->]; auto.
Qed.

Lemma streq_refl (a : jsstring) : streq a a = true.
Proof. apply streq_eq; reflexivity. Qed.

Lemma streq_neq (a b : jsstring) : streq a b = false <-> a <> b.
Proof.
  rewrite <- streq_eq. destruct (streq a b); split; congruence.
Qed.

Lemma startsWith_split (s p : jsstring) :
  startsWith s p = true -> s = p ++ drop (length p) s.
Proof.
  revert s; induction p as [|a p IH]; intros s H; simpl in *.
  - reflexivity.
  - destruct s as [|b s]; [discriminate|].
    apply andb_true_iff in H as [Hab H]. apply N.eqb_eq in Hab as ->.
    simpl. f_equal. apply IH, H.
Qed.


Lemma takeWhile_dropWhile (p : N -> bool) (s : jsstring) :
  takeWhile p s ++ dropWhile p s = s.
Proof.
  induction s as [|c s IH]; simpl; [reflexivity|].
  destruct (p c); simpl; [f_equal; exact IH | reflexivity].
Qed.

Lemma takeWhile_forallb (p : N -> bool) (s : jsstring) :
  forallb p (takeWhile p s) = true.
Proof.
  induction s as [|c s IH]; simpl; [reflexivity|].
  destruct (p c) eqn:E; simpl; [rewrite E; exact IH | reflexivity].
Qed.

Lemma dropWhile_head (p : N -> bool) (s : jsstring) :
  match dropWhile p s with [] => True | c :: _ => p c = false end.
Proof.
  induction s as [|c s IH]; simpl; [exact I|].
  destruct (p c) eqn:E; [exact IH | exact E].
Qed.

(** *** The phone normalizer *)

Lemma cleanPhone_refines (phone : jsstring) :
  cleanPhone (Some phone) = phoneAsSpecified phone.
Proof.
  destruct phone as [|c s]; [reflexivity|].
  unfold cleanPhone, phoneAsSpecified, substring.
  set (digits := List.filter isDigit (c :: s)).
  destruct (startsWith digits (lit "886")) eqn:E886.
  - reflexivity.
  - rewrite andb_comm. reflexivity.
Qed.

(** C8. For every input, [cleanPhone] strips the non-digits, then replaces a
    leading 886 by a single 0, else prepends 0 to a nine-digit number that
    begins with 9; an empty (or missing) input gives the empty string; the
    three sample numbers come out as 0912345678. *)
Theorem cleanPhone_normalizes :
  (forall phone : jsstring, cleanPhone (Some phone) = phoneAsSpecified phone)
  /\ cleanPhone (Some []) = []
  /\ cleanPhone None = []
  /\ cleanPhone (Some (lit "+886912345678")) = lit "0912345678"
  /\ cleanPhone (Some (lit "912345678")) = lit "0912345678"
  /\ cleanPhone (Some (lit "0912345678")) = lit "0912345678".
Proof.
  split; [exact cleanPhone_refines|].
  repeat split; reflexivity.
Qed.

(** *** The address formatter *)

(** C9. The address is the shipping street trimmed when that field is present
    and non-empty, otherwise the billing street as it stands when present,
    otherwise the empty string; only the shipping branch trims. *)
Theorem formatAddress_prefers_shipping :
  (forall row : Row.t,
     formatAddress row =
       match Row.get row (lit "Shipping Street") with
       | Some (c :: s) => trim (c :: s)
       | _ =>
         match Row.get row (lit "Billing Street") with
         | Some billing => billing
         | None => []
         end
       end)
  /\ formatAddress [(lit "Shipping Street", lit "  1 Main St "); (lit "Billing Street", lit " 2 Side St ")]
     = lit "1 Main St"
  /\ formatAddress [(lit "Shipping Street", []); (lit "Billing Street", lit " 2 Side St ")]
     = lit " 2 Side St "
  /\ formatAddress [(lit "Billing Street", lit " 2 Side St ")] = lit " 2 Side St "
  /\ formatAddress [(lit "Name", lit "#1001")] = [].
Proof.
  split.
  - intros row. unfold formatAddress, or_lit.
    destruct (Row.get row (lit "Shipping Street")) as [[|c s]|];
      destruct (Row.get row (lit "Billing Street")) as [[|c' s']|]; reflexivity.
  - repeat split; reflexivity.
Qed.

(** *** The invoice-metadata extractor *)

Section Patterns.

Variable key : jsstring.
Variable C : N -> bool.

Lemma classPlus_sound s g : classPlus C s = Some g -> groupAt C s g.
Proof.
  unfold classPlus. intros H.
  exists [], (dropWhile C s). simpl.
  pose proof (takeWhile_dropWhile C s) as Hs.
  pose proof (takeWhile_forallb C s) as Hall.
  pose proof (dropWhile_head C s) as Hhd.
  destruct (takeWhile C s) as [|c g'] eqn:E; [discriminate|].
  injection H as <-. repeat split; auto; discriminate.
Qed.

Lemma spacesThenGroup_sound s g : spacesThenGroup C s = Some g -> groupAt C s g.
Proof.
  revert g; induction s as [|c s IH]; intros g H; simpl in H; [discriminate|].
  destruct (isWhiteSpace c) eqn:Ec; [|apply classPlus_sound, H].
  destruct (spacesThenGroup C s) as [g'|] eqn:E; [|apply classPlus_sound, H].
  injection H as <-.
  destruct (IH g' eq_refl) as (spaces & after & Hs & Hsp & Hg & Hall & Hafter).
  exists (c :: spaces), after. simpl. rewrite Ec, Hsp, Hs. repeat split; auto.
Qed.

(** The attempt at the head of [s]. *)
Lemma matchHere_sound s g :
  (if startsWith s key then spacesThenGroup C (drop (length key) s) else None) = Some g ->
  matchedAt key C s g.
Proof.
  destruct (startsWith s key) eqn:Ek; [|discriminate].
  intros E. exists [], (drop (length key) s). split.
  - simpl. apply startsWith_split, Ek.
  - apply spacesThenGroup_sound, E.
Qed.

Lemma matchPair_sound s g : matchPair key C s = Some g -> matchedAt key C s g.
Proof.
  revert g; induction s as [|c s IH]; intros g H; cbn [matchPair] in H.
  - destruct (if startsWith [] key then _ else None) as [g'|] eqn:E; [|discriminate].
    injection H as <-. apply matchHere_sound, E.
  - destruct (if startsWith (c :: s) key then _ else None) as [g'|] eqn:E.
    + injection H as <-. apply matchHere_sound, E.
    + destruct (IH g H) as (before & rest & Hs & Hg).
      exists (c :: before), rest. split; [simpl; f_equal; exact Hs | exact Hg].
Qed.


End Patterns.

Section PatternsFound.

Variable key : jsstring.
Variable C : N -> bool.






End PatternsFound.









Lemma parseInvoiceInfo_cases (attrs : jsstring) :
  parseInvoiceInfo (Some attrs) =
    if decide (declaredType attrs = lit "company")
    then (trimmedGroup (matchPair companyIdKey isDigit attrs),
          trimmedGroup (matchPair companyNameKey notLineBreak attrs))
    else ([], []).
Proof.
  destruct attrs as [|c s]; [reflexivity|].
  unfold parseInvoiceInfo, declaredType, trimmedGroup.
  set (m := matchPair invoiceTypeKey notLineBreak (c :: s)).
  assert (Hty : match m with Some g => toLowerCase (trim g) | None => [] end
                = toLowerCase match m with Some g => trim g | None => [] end)
    by (destruct m; reflexivity).
  rewrite Hty.
  set (ty := toLowerCase _).
  destruct (streq ty (lit "company")) eqn:E; simpl.
  - apply streq_eq in E. destruct (decide _); [reflexivity | contradiction].
  - apply streq_neq in E. destruct (decide _); [contradiction | reflexivity].
Qed.


(** *** The export projector *)

(** A loop that pushes one element per step builds the mapped list. *)
Lemma fold_left_push {A B : Type} (f : A -> B) (l : list A) (acc : list B) :
  fold_left (fun acc x => acc ++ [f x]) l acc = acc ++ List.map f l.
Proof.
  revert acc; induction l as [|x l IH]; intros acc; simpl.
  - symmetry; apply app_nil_r.
  - rewrite IH, <- app_assoc. reflexivity.
Qed.

Lemma convertToMovaRows_from (orders : list ProcessedOrder) (acc : list MovaExcelRow) :
  fold_left
    (fun exportRows order =>
       fold_left (fun exportRows item => exportRows ++ [movaRow order item])
                 (items order) exportRows)
    orders acc
  = acc ++ concat (List.map orderRows orders).
Proof.
  revert acc; induction orders as [|o orders IH]; intros acc; simpl.
  - symmetry; apply app_nil_r.
  - rewrite IH, fold_left_push, <- app_assoc. reflexivity.
Qed.

Lemma convertToMovaRows_rows (orders : list ProcessedOrder) :
  convertToMovaRows orders = MOVA_HEADERS :: concat (List.map orderRows orders).
Proof. unfold convertToMovaRows. rewrite convertToMovaRows_from. reflexivity. Qed.

Lemma convertToMovaRows_app (pre post : list ProcessedOrder) :
  convertToMovaRows (pre ++ post)
  = convertToMovaRows pre ++ tail (convertToMovaRows post).
Proof.
  rewrite !convertToMovaRows_rows, map_app, concat_app. reflexivity.
Qed.

Lemma length_concat_orderRows (orders : list ProcessedOrder) :
  length (concat (List.map orderRows orders)) = itemCount orders.
Proof.
  unfold itemCount. induction orders as [|o orders IH]; simpl; [reflexivity|].
  rewrite length_app, IH. unfold orderRows. rewrite length_map. reflexivity.
Qed.

(** C2. [convertToMovaRows] returns the header row followed by one row per
    item of each order, in sequence, so there are as many item rows as items;
    every item row has 29 positions, filled as the fixed mapping says, with
    positions 4, 10, 11, 16, 20, 22 and 23 empty whatever the order holds,
    and position 28 the order's e-mail as the order holds it ([undefined]
    when it holds none); the header row is the 29 fixed texts. *)
Theorem convertToMovaRows_projects :
  (forall orders,
     convertToMovaRows orders
     = MOVA_HEADERS :: concat (List.map (fun o => List.map (movaRow o) (items o)) orders))
  /\ (forall orders, length (tail (convertToMovaRows orders)) = itemCount orders)
  /\ length MOVA_HEADERS = 29%nat
  /\ (forall order item,
        length (movaRow order item) = 29%nat
        /\ movaRow order item =
           [ CStr (match paymentRef order with [] => orderId order | ref => ref end);
             CStr (Customer.name (customer order));
             CStr (Customer.phone (customer order));
             CStr (Customer.address (customer order));
             CStr [];
             CStr (sku item);
             CNum (price item * quantity item)%float;
             CNum (quantity item);
             CNum (price item);
             CStr (lit "XF1400");
             CStr [];
             CStr [];
             CStr (lit "6301");
             CStr (lit "N");
             CStr (lit "N");
             CStr (lit "2");
             CStr [];
             CStr (sku item);
             CStr (lit "F91000000");
             CStr (lit "N");
             CStr [];
             CStr (carrierId order);
             CStr [];
             CStr [];
             CStr (match taxId order with Some (c :: s) => c :: s | _ => [] end);
             CStr (match companyName order with Some (c :: s) => c :: s | _ => [] end);
             CStr (orderId order);
             CStr (shopifyId order);
             match email order with
             | Some address => CStr address
             | None => CUndefined
             end ])
  /\ MOVA_HEADERS
     = [ CStr (lit "通路訂單編號"); CStr (lit "收貨人"); CStr (lit "聯絡電話");
         CStr (lit "送貨地址"); CStr (lit "備註"); CStr (lit "品號");
         CStr (lit "金額合計"); CStr (lit "數量"); CStr (lit "單價");
         CStr (lit "出貨倉庫"); CStr (lit "統一編號"); CStr (lit "代收貨款");
         CStr (lit "業務員"); CStr (lit "來回件"); CStr (lit "附件");
         CStr (lit "運輸方式"); CStr (lit "指定效期"); CStr (lit "客戶品號");
         CStr (lit "ERP客戶代號"); CStr (lit "是否指定倉庫"); CStr (lit "發票號碼");
         CStr (lit "載具號碼"); CStr (lit "發票開立日期"); CStr (lit "發票開立時間");
         CStr (lit "統一編號(發票)"); CStr (lit "統一編號抬頭"); CStr (lit "通路訂單序號");
         CStr (lit "網站訂單編號"); CStr (lit "Email") ]
  /\ (forall order,
        let item := {| sku := lit "A1"; name := lit "Widget"; quantity := 2%float;
                       price := 50%float; isSystemAddon := None |} in
        movaRow order item !! 6%nat = Some (CNum 100%float)
        /\ movaRow order item !! 7%nat = Some (CNum 2%float)
        /\ movaRow order item !! 9%nat = Some (CStr (lit "XF1400"))).
Proof.
  split; [exact convertToMovaRows_rows|].
  split.
  { intros orders. rewrite convertToMovaRows_rows. simpl.
    apply length_concat_orderRows. }
  split; [reflexivity|].
  split.
  { intros order item. split; reflexivity. }
  split; [reflexivity|].
  intros order item. repeat split; reflexivity.
Qed.

(** *** Aggregation: what the loop over the rows builds *)

Lemma elem_of_distinct (k : jsstring) (l : list jsstring) :
  k ∈ distinct l <-> k ∈ l.
Proof.
  induction l as [|a l IH]; simpl; [reflexivity|].
  rewrite !elem_of_cons, <- IH. split.
  - intros [->|H]; [left; reflexivity|].
    apply list_elem_of_In, filter_In in H as [H _].
    right; apply list_elem_of_In, H.
  - intros [->|H]; [left; reflexivity|].
    destruct (decide (k = a)) as [->|Hne]; [left; reflexivity|right].
    apply list_elem_of_In, filter_In. split; [apply list_elem_of_In, H|].
    apply negb_true_iff, streq_neq. congruence.
Qed.

Lemma NoDup_distinct (l : list jsstring) : NoDup (distinct l).
Proof.
  induction l as [|a l IH]; simpl; constructor.
  - intros H. apply list_elem_of_In, filter_In in H as [_ H].
    rewrite streq_refl in H. discriminate.
  - apply NoDup_ListNoDup, List.NoDup_filter, NoDup_ListNoDup, IH.
Qed.

Lemma distinct_snoc (l : list jsstring) (k : jsstring) :
  distinct (l ++ [k]) = if decide (k ∈ l) then distinct l else distinct l ++ [k].
Proof.
  induction l as [|a l IH]; simpl.
  - destruct (decide (k ∈ [])) as [H|_]; [inversion H | reflexivity].
  - rewrite IH. destruct (decide (k = a)) as [->|Hne].
    + destruct (decide (a ∈ a :: l)) as [_|H]; [|exfalso; apply H; left].
      destruct (decide (a ∈ l)); [reflexivity|].
      rewrite List.filter_app. simpl. rewrite streq_refl. simpl.
      rewrite app_nil_r. reflexivity.
    + destruct (decide (k ∈ l)) as [Hin|Hnin].
      * destruct (decide (k ∈ a :: l)) as [_|H]; [reflexivity|].
        exfalso; apply H; right; exact Hin.
      * destruct (decide (k ∈ a :: l)) as [H|_].
        { apply elem_of_cons in H as [H|H]; contradiction. }
        rewrite List.filter_app. simpl.
        assert (E : streq a k = false) by (apply streq_neq; congruence).
        rewrite E. reflexivity.
Qed.

Lemma entries_ext (f g : jsstring -> ProcessedOrder) (ks : list jsstring) :
  (forall k, k ∈ ks -> f k = g k) -> entries f ks = entries g ks.
Proof.
  intros H. unfold entries. apply map_ext_in. intros k Hk.
  rewrite (H k); [reflexivity | apply list_elem_of_In, Hk].
Qed.

Lemma has_entries f ks k :
  OrderMap.has (entries f ks) k = bool_decide (k ∈ ks).
Proof.
  induction ks as [|a ks IH]; cbn [entries List.map OrderMap.has].
  - symmetry. apply bool_decide_eq_false_2. intros H; inversion H.
  - fold (entries f ks). rewrite IH. destruct (streq a k) eqn:E; cbn [orb].
    + apply streq_eq in E as ->. symmetry. apply bool_decide_eq_true_2. left.
    + apply streq_neq in E. apply bool_decide_ext.
      rewrite elem_of_cons. split; [tauto | intros [?|?]; [congruence | assumption]].
Qed.

Lemma set_entries_fresh f ks k v :
  k ∉ ks -> OrderMap.set (entries f ks) k v = entries f ks ++ [(k, v)].
Proof.
  induction ks as [|a ks IH]; intros H; simpl; [reflexivity|].
  apply not_elem_of_cons in H as [Hne H].
  assert (E : streq a k = false) by (apply streq_neq; congruence).
  rewrite E, IH by assumption. reflexivity.
Qed.

Lemma modify_entries_fresh f ks k g :
  k ∉ ks -> OrderMap.modify (entries f ks) k g = entries f ks.
Proof.
  induction ks as [|a ks IH]; intros H; simpl; [reflexivity|].
  apply not_elem_of_cons in H as [Hne H].
  assert (E : streq a k = false) by (apply streq_neq; congruence).
  rewrite E, IH by assumption. reflexivity.
Qed.

Lemma modify_entries f ks k g :
  NoDup ks ->
  OrderMap.modify (entries f ks) k g
  = entries (fun k' => if decide (k' = k) then g (f k') else f k') ks.
Proof.
  induction 1 as [|a ks Ha Hnd IH]; simpl; [reflexivity|].
  destruct (streq a k) eqn:E.
  - apply streq_eq in E as ->. destruct (decide (k = k)); [|contradiction].
    f_equal. apply entries_ext. intros k' Hk'.
    destruct (decide (k' = k)) as [->|_]; [contradiction | reflexivity].
  - apply streq_neq in E. destruct (decide (a = k)); [contradiction|].
    rewrite IH. reflexivity.
Qed.

Lemma modify_app_last m k v g :
  OrderMap.has m k = false ->
  OrderMap.modify (m ++ [(k, v)]) k g = m ++ [(k, g v)].
Proof.
  induction m as [|[a w] m IH]; simpl; intros H.
  - rewrite streq_refl. reflexivity.
  - apply orb_false_iff in H as [E H]. rewrite E, IH by assumption. reflexivity.
Qed.

(** How the row sets grow with one more row. *)
Lemma rowsOf_snoc k rows r :
  rowsOf k (rows ++ [r])
  = rowsOf k rows ++ (if decide (rowId r = Some k) then [r] else []).
Proof.
  unfold rowsOf. rewrite List.filter_app. simpl.
  destruct (decide (rowId r = Some k)) as [H|H].
  - rewrite bool_decide_eq_true_2 by assumption. reflexivity.
  - rewrite bool_decide_eq_false_2 by assumption. reflexivity.
Qed.

Lemma rowsOf_nonempty k rows :
  k ∈ omap rowId rows -> rowsOf k rows <> [].
Proof.
  intros H. apply list_elem_of_omap in H as (r & Hr & Hid).
  intros E. assert (Hin : In r (rowsOf k rows)).
  { apply filter_In. split; [apply list_elem_of_In, Hr|].
    apply bool_decide_eq_true_2, Hid. }
  rewrite E in Hin. exact Hin.
Qed.

Lemma rowsOf_empty k rows :
  k ∉ omap rowId rows -> rowsOf k rows = [].
Proof.
  intros H. unfold rowsOf.
  destruct (List.filter _ rows) as [|r l] eqn:E; [reflexivity|].
  exfalso. apply H.
  assert (Hin : In r (List.filter (fun r => bool_decide (rowId r = Some k)) rows))
    by (rewrite E; left; reflexivity).
  apply filter_In in Hin as [Hin Hid]. apply bool_decide_eq_true in Hid.
  apply list_elem_of_omap. exists r. split; [apply list_elem_of_In, Hin | exact Hid].
Qed.

Lemma head_app_nonempty {A : Type} (l l' : list A) :
  l <> [] -> head (l ++ l') = head l.
Proof. destruct l; [contradiction | reflexivity]. Qed.

Lemma aggregated_snoc_other k rows r :
  rowId r <> Some k -> aggregated k (rows ++ [r]) = aggregated k rows.
Proof.
  intros H. unfold aggregated, itemsOf. rewrite rowsOf_snoc.
  destruct (decide _); [contradiction|]. rewrite app_nil_r. reflexivity.
Qed.

Lemma aggregated_snoc_known k rows r :
  rowId r = Some k -> k ∈ omap rowId rows ->
  aggregated k (rows ++ [r])
  = match rowItem r with
    | Some item => push item (aggregated k rows)
    | None => aggregated k rows
    end.
Proof.
  intros H Hk. unfold aggregated, itemsOf. rewrite rowsOf_snoc.
  destruct (decide _); [|contradiction].
  rewrite head_app_nonempty by (apply rowsOf_nonempty, Hk).
  rewrite omap_app. simpl. destruct (rowItem r); simpl.
  - reflexivity.
  - rewrite app_nil_r. reflexivity.
Qed.

Lemma aggregated_snoc_new k rows r :
  rowId r = Some k -> k ∉ omap rowId rows ->
  aggregated k (rows ++ [r])
  = match rowItem r with
    | Some item => push item (newOrder k r)
    | None => newOrder k r
    end.
Proof.
  intros H Hk. unfold aggregated, itemsOf. rewrite rowsOf_snoc.
  destruct (decide _); [|contradiction].
  rewrite (rowsOf_empty _ _ Hk). simpl. destruct (rowItem r); reflexivity.
Qed.

Lemma addRow_skip m r : rowId r = None -> addRow m r = m.
Proof.
  unfold rowId, addRow.
  destruct (Row.get r (lit "Name")) as [[|c s]|]; [reflexivity | discriminate | reflexivity].
Qed.

Lemma addRow_file m r k :
  rowId r = Some k ->
  addRow m r =
    let m1 := if OrderMap.has m k then m else OrderMap.set m k (newOrder k r) in
    match rowItem r with
    | Some item => OrderMap.modify m1 k (push item)
    | None => m1
    end.
Proof.
  unfold rowId, rowItem, addRow.
  destruct (Row.get r (lit "Name")) as [[|c s]|]; try discriminate.
  intros [= <-]. cbv zeta.
  destruct (Row.get r (lit "Lineitem name")) as [[|c' s']|]; reflexivity.
Qed.

(** The loop over the rows leaves one entry per identifier, in the order the
    identifiers were first met, each holding the aggregated order. *)
Lemma aggregate_spec (rows : list Row.t) :
  fold_left addRow rows [] = entries (fun k => aggregated k rows) (orderIds rows).
Proof.
  induction rows as [|r rows IH] using rev_ind; [reflexivity|].
  rewrite fold_left_app. simpl. rewrite IH. clear IH.
  unfold orderIds. rewrite omap_app. simpl.
  destruct (rowId r) as [k|] eqn:Hid; simpl.
  - rewrite (addRow_file _ _ _ Hid), distinct_snoc, has_entries. cbv zeta.
    destruct (decide (k ∈ omap rowId rows)) as [Hk|Hk].
    + rewrite bool_decide_eq_true_2 by (apply elem_of_distinct, Hk).
      assert (Hagg : forall k', aggregated k' (rows ++ [r])
                = if decide (k' = k)
                  then match rowItem r with
                       | Some item => push item (aggregated k' rows)
                       | None => aggregated k' rows
                       end
                  else aggregated k' rows).
      { intros k'. destruct (decide (k' = k)) as [->|Hne].
        - apply aggregated_snoc_known; assumption.
        - apply aggregated_snoc_other. congruence. }
      destruct (rowItem r) as [item|].
      * rewrite modify_entries by apply NoDup_distinct.
        apply entries_ext. intros k' _. symmetry. apply Hagg.
      * apply entries_ext. intros k' _. rewrite Hagg.
        destruct (decide _); reflexivity.
    + assert (Hfresh : k ∉ distinct (omap rowId rows))
        by (rewrite elem_of_distinct; exact Hk).
      rewrite bool_decide_eq_false_2 by exact Hfresh.
      rewrite set_entries_fresh by exact Hfresh.
      unfold entries at 3. rewrite map_app. simpl.
      fold (entries (fun k => aggregated k (rows ++ [r])) (distinct (omap rowId rows))).
      rewrite (aggregated_snoc_new _ _ _ Hid Hk).
      assert (Hold : entries (fun k => aggregated k (rows ++ [r])) (distinct (omap rowId rows))
                     = entries (fun k => aggregated k rows) (distinct (omap rowId rows))).
      { apply entries_ext. intros k' Hk'. apply aggregated_snoc_other.
        intros E. rewrite Hid in E. injection E as <-. contradiction. }
      rewrite Hold.
      destruct (rowItem r) as [item|]; [|reflexivity].
      apply modify_app_last. rewrite has_entries.
      apply bool_decide_eq_false_2, Hfresh.
  - rewrite app_nil_r, (addRow_skip _ _ Hid).
    apply entries_ext. intros k' _. symmetry. apply aggregated_snoc_other.
    rewrite Hid. discriminate.
Qed.

(** [processOrders] applies the business rules to each aggregated order, in
    the order of the identifiers. *)
Lemma processOrders_spec (rows : list Row.t) :
  processOrders rows
  = List.map (fun k => applyRules (aggregated k rows)) (orderIds rows).
Proof.
  unfold processOrders. rewrite aggregate_spec.
  rewrite (fold_left_push (fun entry => applyRules (snd entry))). simpl.
  unfold entries. rewrite List.map_map. reflexivity.
Qed.

(** *** The business rules *)

(** Both outcomes of the comparison with the threshold. *)
Ltac case_threshold :=
  match goal with
  | |- context [(?x <? 1000)%float] => destruct (x <? 1000)%float
  end.

Lemma applyRules_items (o : ProcessedOrder) :
  items (applyRules o)
  = items o ++ (if (itemsTotal (items o) <? 1000)%float then [shippingAddon] else []).
Proof.
  unfold applyRules. cbn [subtotal set_subtotal].
  case_threshold; simpl.
  - reflexivity.
  - symmetry; apply app_nil_r.
Qed.

Lemma applyRules_subtotal (o : ProcessedOrder) :
  subtotal (applyRules o) = itemsTotal (items o).
Proof.
  unfold applyRules. cbn [subtotal set_subtotal].
  case_threshold; reflexivity.
Qed.

Lemma applyRules_orderId (o : ProcessedOrder) : orderId (applyRules o) = orderId o.
Proof.
  unfold applyRules. cbn [subtotal set_subtotal].
  case_threshold; reflexivity.
Qed.

Lemma rowItem_real r item : rowItem r = Some item -> isAddon item = false.
Proof.
  unfold rowItem. destruct (Row.get r (lit "Lineitem name")) as [[|c s]|]; try discriminate.
  intros [= <-]. reflexivity.
Qed.

Lemma filter_real_itemsOf k rows :
  List.filter (fun item => negb (isAddon item)) (itemsOf k rows) = itemsOf k rows.
Proof.
  unfold itemsOf. induction (rowsOf k rows) as [|r l IH]; simpl; [reflexivity|].
  destruct (rowItem r) as [item|] eqn:E; simpl; [|exact IH].
  rewrite (rowItem_real _ _ E). simpl. f_equal. exact IH.
Qed.

Lemma filter_addon_itemsOf k rows :
  List.filter isAddon (itemsOf k rows) = [].
Proof.
  unfold itemsOf. induction (rowsOf k rows) as [|r l IH]; simpl; [reflexivity|].
  destruct (rowItem r) as [item|] eqn:E; simpl; [|exact IH].
  rewrite (rowItem_real _ _ E). exact IH.
Qed.

Lemma realItems_finalized k rows :
  realItems (applyRules (aggregated k rows)) = itemsOf k rows.
Proof.
  unfold realItems. rewrite applyRules_items. cbn [aggregated items set_items].
  rewrite List.filter_app, filter_real_itemsOf.
  case_threshold; simpl; apply app_nil_r.
Qed.

(** C1. In every order [processOrders] returns, the stored subtotal is the
    sum, from 0 and in item order, of price times quantity over the real line
    items, whatever the source's Subtotal column says; the items are the real
    ones followed by exactly one system addon (sku Z90001, quantity 1, price
    120, marked as system addon) when that subtotal is strictly below 1000
    and by nothing otherwise, so the addon's price is not part of the stored
    subtotal. *)
Theorem processOrders_finalizes :
  (forall rows,
     Forall (fun o =>
               subtotal o
               = fold_left (fun sum item => (sum + price item * quantity item)%float)
                           (realItems o) 0%float
               /\ items o
                  = realItems o
                    ++ (if (subtotal o <? 1000)%float
                        then [ {| sku := lit "Z90001"; name := lit "運費";
                                  quantity := 1%float; price := 120%float;
                                  isSystemAddon := Some true |} ]
                        else [])
               /\ Forall (fun item => isSystemAddon item = None) (realItems o)
               /\ length (List.filter isAddon (items o))
                  = (if (subtotal o <? 1000)%float then 1%nat else 0%nat))
            (processOrders rows))
  /\ List.map (fun o => (subtotal o, List.map (fun i => (sku i, quantity i, price i)) (items o)))
              (processOrders (twoItemOrder "3" "200" "2" "199.5"))
     = [ (999%float, [ (lit "A1", 3%float, 200%float); (lit "B2", 2%float, 199.5%float);
                       (lit "Z90001", 1%float, 120%float) ]) ]
  /\ List.map (fun o => (subtotal o, List.map (fun i => (sku i, quantity i, price i)) (items o)))
              (processOrders (twoItemOrder "2" "250" "1" "500"))
     = [ (1000%float, [ (lit "A1", 2%float, 250%float); (lit "B2", 1%float, 500%float) ]) ]
  /\ List.map (fun o => (subtotal o, List.map sku (items o)))
              (processOrders (singleItemOrder "999"))
     = [(999%float, [lit "A1"; lit "Z90001"])]
  /\ List.map (fun o => (subtotal o, List.map sku (items o)))
              (processOrders (singleItemOrder "1000"))
     = [(1000%float, [lit "A1"])]
  /\ List.map originalSubtotal (processOrders (twoItemOrder "3" "200" "2" "199.5"))
     = [5000%float].
Proof.
  split.
  { intros rows. rewrite processOrders_spec. apply List.Forall_map, List.Forall_forall.
    intros k _. rewrite realItems_finalized, applyRules_subtotal, applyRules_items.
    cbn [aggregated items set_items].
    split; [reflexivity|]. split; [reflexivity|].
    split.
    { apply List.Forall_forall. intros item Hitem.
      apply list_elem_of_In, list_elem_of_omap in Hitem as (r & _ & Hr).
      unfold rowItem in Hr.
      destruct (Row.get r (lit "Lineitem name")) as [[|c s]|]; try discriminate.
      injection Hr as <-. reflexivity. }
    rewrite List.filter_app, filter_addon_itemsOf.
    case_threshold; reflexivity. }
  repeat split; vm_compute; reflexivity.
Qed.

(** *** Ordering *)

Lemma rowId_None (r : Row.t) :
  rowId r = None <-> truthy (Row.get r (lit "Name")) = false.
Proof.
  unfold rowId, truthy.
  destruct (Row.get r (lit "Name")) as [[|c s]|]; split; congruence.
Qed.

Lemma orderIds_snoc (rows : list Row.t) (r : Row.t) :
  orderIds (rows ++ [r])
  = match rowId r with
    | Some k => if decide (k ∈ orderIds rows) then orderIds rows else orderIds rows ++ [k]
    | None => orderIds rows
    end.
Proof.
  unfold orderIds. rewrite omap_app. simpl.
  destruct (rowId r) as [k|]; simpl.
  - rewrite distinct_snoc.
    destruct (decide (k ∈ omap rowId rows)) as [H|H];
      destruct (decide (k ∈ distinct (omap rowId rows))) as [H'|H'];
      try reflexivity; exfalso; rewrite elem_of_distinct in H'; contradiction.
  - rewrite app_nil_r. reflexivity.
Qed.

Lemma rowsOf_skip k rows1 r rows2 :
  rowId r = None -> rowsOf k (rows1 ++ r :: rows2) = rowsOf k (rows1 ++ rows2).
Proof.
  intros H. unfold rowsOf. rewrite !List.filter_app. simpl.
  rewrite bool_decide_eq_false_2 by (rewrite H; discriminate). reflexivity.
Qed.

Lemma processOrders_skip rows1 r rows2 :
  rowId r = None -> processOrders (rows1 ++ r :: rows2) = processOrders (rows1 ++ rows2).
Proof.
  intros H. rewrite !processOrders_spec.
  assert (Hids : orderIds (rows1 ++ r :: rows2) = orderIds (rows1 ++ rows2)).
  { unfold orderIds. rewrite !omap_app. simpl. rewrite H. reflexivity. }
  rewrite Hids. apply map_ext. intros k.
  unfold aggregated, itemsOf. rewrite (rowsOf_skip _ _ _ _ H). reflexivity.
Qed.

(** C6. Rows whose order identifier is missing or empty are passed over
    without error; the orders come out in the order their identifiers were
    first met; the items of an order are those of its rows in row order,
    followed by the shipping addon when there is one. *)
Theorem processOrders_ordering :
  (forall rows, List.map orderId (processOrders rows) = orderIds rows)
  /\ orderIds [] = []
  /\ (forall rows r,
        orderIds (rows ++ [r])
        = match Row.get r (lit "Name") with
          | Some (c :: s) =>
            if decide ((c :: s) ∈ orderIds rows) then orderIds rows
            else orderIds rows ++ [c :: s]
          | _ => orderIds rows
          end)
  /\ (forall rows1 r rows2,
        truthy (Row.get r (lit "Name")) = false ->
        processOrders (rows1 ++ r :: rows2) = processOrders (rows1 ++ rows2))
  /\ (forall rows,
        Forall (fun o =>
                  items o = itemsOf (orderId o) rows
                  \/ items o = itemsOf (orderId o) rows ++ [shippingAddon])
               (processOrders rows))
  /\ List.map (fun o => (orderId o, List.map sku (items o))) (processOrders interleavedRows)
     = [ (lit "#2", [lit "B1"; lit "B2"; lit "Z90001"]); (lit "#1", [lit "A1"]) ].
Proof.
  split.
  { intros rows. rewrite processOrders_spec, List.map_map.
    rewrite <- (map_id (orderIds rows)) at 2. apply map_ext.
    intros k. rewrite applyRules_orderId. reflexivity. }
  split; [reflexivity|].
  split.
  { intros rows r. rewrite orderIds_snoc. unfold rowId.
    destruct (Row.get r (lit "Name")) as [[|c s]|]; reflexivity. }
  split.
  { intros rows1 r rows2 H. apply processOrders_skip, rowId_None, H. }
  split.
  { intros rows. rewrite processOrders_spec. apply List.Forall_map, List.Forall_forall.
    intros k _. rewrite applyRules_orderId, applyRules_items.
    cbn [aggregated items set_items orderId].
    case_threshold.
    - right. reflexivity.
    - left. apply app_nil_r. }
  vm_compute. reflexivity.
Qed.

(** *** Orders without line items *)

Lemma rowItem_None (r : Row.t) :
  rowItem r = None <-> truthy (Row.get r (lit "Lineitem name")) = false.
Proof.
  unfold rowItem, truthy.
  destruct (Row.get r (lit "Lineitem name")) as [[|c s]|]; split; congruence.
Qed.

Lemma itemsOf_nil k rows :
  (forall r, r ∈ rows -> rowId r = Some k -> rowItem r = None) -> itemsOf k rows = [].
Proof.
  intros H. unfold itemsOf, rowsOf.
  induction rows as [|r rows IH]; simpl; [reflexivity|].
  assert (IH' : omap rowItem (List.filter (fun r => bool_decide (rowId r = Some k)) rows) = [])
    by (apply IH; intros r' Hr'; apply H; right; exact Hr').
  destruct (decide (rowId r = Some k)) as [Hid|Hid].
  - rewrite bool_decide_eq_true_2 by exact Hid. simpl.
    rewrite (H r) by (try left; assumption). exact IH'.
  - rewrite bool_decide_eq_false_2 by exact Hid. exact IH'.
Qed.

(** C10. An order none of whose rows carries a line-item name is not dropped:
    it is returned with subtotal 0 and the shipping addon (sku Z90001,
    quantity 1, price 120) as its only item, and the export holds exactly one
    row for it, between the rows of the orders before it and those of the
    orders after it. *)
Theorem order_without_items_is_kept (rows : list Row.t) (k : jsstring)
    (Hk : exists r, r ∈ rows /\ Row.get r (lit "Name") = Some k /\ k <> [])
    (Hnone : forall r, r ∈ rows -> Row.get r (lit "Name") = Some k ->
                       truthy (Row.get r (lit "Lineitem name")) = false) :
  exists before o after addon,
    addon = {| sku := lit "Z90001"; name := lit "運費"; quantity := 1%float;
               price := 120%float; isSystemAddon := Some true |}
    /\ processOrders rows = before ++ o :: after
    /\ orderId o = k
    /\ subtotal o = 0%float
    /\ items o = [addon]
    /\ convertToMovaRows (processOrders rows)
       = convertToMovaRows before ++ [movaRow o addon]
         ++ tail (convertToMovaRows after).
Proof.
  destruct Hk as (r0 & Hr0 & Hname & Hne).
  assert (Hid0 : rowId r0 = Some k).
  { unfold rowId. rewrite Hname. destruct k; [contradiction | reflexivity]. }
  assert (Hin : k ∈ orderIds rows).
  { apply elem_of_distinct, list_elem_of_omap. exists r0. split; assumption. }
  apply list_elem_of_split in Hin as (ks1 & ks2 & Hks).
  assert (Hitems : itemsOf k rows = []).
  { apply itemsOf_nil. intros r Hr Hid. apply rowItem_None, Hnone; [exact Hr|].
    unfold rowId in Hid.
    destruct (Row.get r (lit "Name")) as [[|c s]|]; congruence. }
  set (F := fun k => applyRules (aggregated k rows)).
  exists (List.map F ks1), (F k), (List.map F ks2), shippingAddon.
  assert (Hsplit : processOrders rows = List.map F ks1 ++ F k :: List.map F ks2).
  { rewrite processOrders_spec, Hks, map_app. reflexivity. }
  assert (HitemsF : items (F k) = [shippingAddon]).
  { unfold F. rewrite applyRules_items. cbn [aggregated items set_items].
    rewrite Hitems. reflexivity. }
  split; [reflexivity|].
  split; [exact Hsplit|].
  split; [unfold F; rewrite applyRules_orderId; reflexivity|].
  split.
  { unfold F. rewrite applyRules_subtotal. cbn [aggregated items set_items].
    rewrite Hitems. reflexivity. }
  split; [exact HitemsF|].
  rewrite Hsplit, convertToMovaRows_app. f_equal.
  change (F k :: List.map F ks2) with ([F k] ++ List.map F ks2).
  rewrite convertToMovaRows_app.
  rewrite (convertToMovaRows_rows [F k]). simpl.
  unfold orderRows. rewrite HitemsF. reflexivity.
Qed.

Lemma order_without_items_is_kept_witness :
  exists before o after addon,
    addon = {| sku := lit "Z90001"; name := lit "運費"; quantity := 1%float;
               price := 120%float; isSystemAddon := Some true |}
    /\ processOrders [ [ (lit "Name", lit "#7"); (lit "Total", lit "0") ] ] = before ++ o :: after
    /\ orderId o = lit "#7"
    /\ subtotal o = 0%float
    /\ items o = [addon]
    /\ convertToMovaRows (processOrders [ [ (lit "Name", lit "#7"); (lit "Total", lit "0") ] ])
       = convertToMovaRows before ++ [movaRow o addon]
         ++ tail (convertToMovaRows after).
Proof.
  apply (order_without_items_is_kept
           [ [ (lit "Name", lit "#7"); (lit "Total", lit "0") ] ] (lit "#7")).
  - exists [ (lit "Name", lit "#7"); (lit "Total", lit "0") ].
    split; [left | split; [reflexivity | discriminate]].
  - intros r Hr _. apply list_elem_of_singleton in Hr. subst r. reflexivity.
Defined.

(** *** Numeric fields *)

Lemma or_lit_falsy (v : option jsstring) (d : jsstring) :
  truthy v = false -> or_lit v d = d.
Proof. destruct v as [[|c s]|]; simpl; congruence. Qed.

Lemma parse_zero : parseInt (lit "0") = 0%float /\ parseFloat (lit "0") = 0%float.
Proof. split; reflexivity. Qed.

Lemma lineItem_absent_numbers (r : Row.t) (n : jsstring) :
  (truthy (Row.get r (lit "Lineitem quantity")) = false -> quantity (lineItem r n) = 0%float)
  /\ (truthy (Row.get r (lit "Lineitem price")) = false -> price (lineItem r n) = 0%float).
Proof.
  split; intros H; cbn [lineItem quantity price]; rewrite (or_lit_falsy _ _ H);
    apply parse_zero.
Qed.

Lemma newOrder_absent_numbers (k : jsstring) (r : Row.t) :
  (truthy (Row.get r (lit "Subtotal")) = false -> originalSubtotal (newOrder k r) = 0%float)
  /\ (truthy (Row.get r (lit "Shipping")) = false -> shippingFee (newOrder k r) = 0%float)
  /\ (truthy (Row.get r (lit "Total")) = false -> total (newOrder k r) = 0%float).
Proof.
  repeat split; intros H;
    cbn [newOrder originalSubtotal shippingFee total]; rewrite (or_lit_falsy _ _ H);
    apply parse_zero.
Qed.

Lemma applyRules_carried (o : ProcessedOrder) :
  originalSubtotal (applyRules o) = originalSubtotal o
  /\ shippingFee (applyRules o) = shippingFee o
  /\ total (applyRules o) = total o.
Proof.
  unfold applyRules. cbn [subtotal set_subtotal].
  case_threshold; repeat split; reflexivity.
Qed.

Lemma rowItem_in_itemsOf k rows r item :
  r ∈ rows -> rowId r = Some k -> rowItem r = Some item -> item ∈ itemsOf k rows.
Proof.
  intros Hr Hid Hitem. apply list_elem_of_omap. exists r. split; [|exact Hitem].
  apply list_elem_of_In, filter_In. split; [apply list_elem_of_In, Hr|].
  apply bool_decide_eq_true_2, Hid.
Qed.

Lemma parseInt_or_zero (v : option jsstring) :
  parseInt (or_lit v (lit "0"))
  = match v with Some (c :: s) => parseInt (c :: s) | _ => 0%float end.
Proof. destruct v as [[|c s]|]; reflexivity. Qed.

Lemma parseFloat_or_zero (v : option jsstring) :
  parseFloat (or_lit v (lit "0"))
  = match v with Some (c :: s) => parseFloat (c :: s) | _ => 0%float end.
Proof. destruct v as [[|c s]|]; reflexivity. Qed.

(** C4, as the code has it. Every row filed under an order identifier is
    aggregated into the order of that identifier, whatever its numeric fields
    hold. When the row carries a line item, the order holds an item of that
    name whose quantity is 0 if the quantity field is missing or empty and
    [parseInt] of the field otherwise, and whose price is 0 if the price
    field is missing or empty and [parseFloat] of it otherwise. The order's
    original subtotal, shipping fee and total are read from the first row of
    the order, and from no other: each is 0 if its field there is missing or
    empty and [parseFloat] of the field otherwise. *)
Theorem absent_numeric_fields_are_zero (rows : list Row.t) (r : Row.t) (k : jsstring)
    (Hr : r ∈ rows) (Hk : rowId r = Some k) :
  exists o,
    o ∈ processOrders rows /\ orderId o = k
    /\ (forall n, Row.get r (lit "Lineitem name") = Some n -> n <> [] ->
          exists item,
            item ∈ items o /\ name item = n
            /\ quantity item
               = match Row.get r (lit "Lineitem quantity") with
                 | Some (c :: s) => parseInt (c :: s)
                 | _ => 0%float
                 end
            /\ price item
               = match Row.get r (lit "Lineitem price") with
                 | Some (c :: s) => parseFloat (c :: s)
                 | _ => 0%float
                 end)
    /\ (exists r0,
          head (rowsOf k rows) = Some r0
          /\ originalSubtotal o
             = match Row.get r0 (lit "Subtotal") with
               | Some (c :: s) => parseFloat (c :: s)
               | _ => 0%float
               end
          /\ shippingFee o
             = match Row.get r0 (lit "Shipping") with
               | Some (c :: s) => parseFloat (c :: s)
               | _ => 0%float
               end
          /\ total o
             = match Row.get r0 (lit "Total") with
               | Some (c :: s) => parseFloat (c :: s)
               | _ => 0%float
               end).
Proof.
  exists (applyRules (aggregated k rows)).
  assert (Hin : k ∈ omap rowId rows)
    by (apply list_elem_of_omap; exists r; split; assumption).
  split.
  { rewrite processOrders_spec. apply list_elem_of_fmap.
    exists k. split; [reflexivity|]. apply elem_of_distinct, Hin. }
  split; [rewrite applyRules_orderId; reflexivity|].
  split.
  - intros n Hn Hne. destruct n as [|c s]; [contradiction|].
    exists (lineItem r (c :: s)). split.
    + rewrite applyRules_items. apply elem_of_app. left.
      cbn [aggregated items set_items].
      apply (rowItem_in_itemsOf _ _ _ _ Hr Hk). unfold rowItem. rewrite Hn. reflexivity.
    + cbn [lineItem name quantity price].
      rewrite parseInt_or_zero, parseFloat_or_zero. repeat split.
  - pose proof (rowsOf_nonempty _ _ Hin) as Hne.
    destruct (rowsOf k rows) as [|r0 l] eqn:E; [contradiction|].
    exists r0. split; [reflexivity|].
    destruct (applyRules_carried (aggregated k rows)) as (-> & -> & ->).
    unfold aggregated. rewrite E.
    cbn [set_items originalSubtotal shippingFee total default head newOrder].
    rewrite !parseFloat_or_zero. repeat split.
Qed.

Lemma absent_numeric_fields_are_zero_witness :
  exists o,
    o ∈ processOrders blankThenFilledRows /\ orderId o = lit "#1001"
    /\ (forall n, Row.get blankNumbersRow (lit "Lineitem name") = Some n -> n <> [] ->
          exists item,
            item ∈ items o /\ name item = n
            /\ quantity item
               = match Row.get blankNumbersRow (lit "Lineitem quantity") with
                 | Some (c :: s) => parseInt (c :: s)
                 | _ => 0%float
                 end
            /\ price item
               = match Row.get blankNumbersRow (lit "Lineitem price") with
                 | Some (c :: s) => parseFloat (c :: s)
                 | _ => 0%float
                 end)
    /\ (exists r0,
          head (rowsOf (lit "#1001") blankThenFilledRows) = Some r0
          /\ originalSubtotal o
             = match Row.get r0 (lit "Subtotal") with
               | Some (c :: s) => parseFloat (c :: s)
               | _ => 0%float
               end
          /\ shippingFee o
             = match Row.get r0 (lit "Shipping") with
               | Some (c :: s) => parseFloat (c :: s)
               | _ => 0%float
               end
          /\ total o
             = match Row.get r0 (lit "Total") with
               | Some (c :: s) => parseFloat (c :: s)
               | _ => 0%float
               end).
Proof.
  apply (absent_numeric_fields_are_zero blankThenFilledRows blankNumbersRow (lit "#1001")).
  - left.
  - reflexivity.
Defined.

(** Against C4 as stated: a quantity field that does not parse gives the item
    the quantity [NaN], and a Subtotal field that does not parse gives the
    order the original subtotal [NaN]; neither is 0. The row is still
    aggregated. *)
Lemma unparseable_field_is_nan :
  List.map (fun o => (originalSubtotal o, List.map quantity (items o)))
           (processOrders [unparseableQuantityRow])
  = [(nan, [nan])]
  /\ nan <> 0%float.
Proof.
  split; [vm_compute; reflexivity|].
  intros H. apply (f_equal is_nan) in H. vm_compute in H. discriminate.
Qed.

(** *** Applying the rules twice *)




(** *** Boundary checks *)

Lemma has_iff_key (row : Row.t) (key : jsstring) :
  Row.has row key = true <-> key ∈ List.map fst row.
Proof.
  unfold Row.has. induction row as [|[k v] row IH]; simpl.
  - split; [discriminate | intros H; inversion H].
  - destruct (streq k key) eqn:E.
    + apply streq_eq in E as ->. split; [left | reflexivity].
    + apply streq_neq in E. rewrite IH, elem_of_cons.
      split; [tauto | intros [?|?]; [congruence | assumption]].
Qed.

Lemma elem_of_insertIndex (k a : jsstring) (ks : list jsstring) :
  k ∈ Row.insertIndex a ks <-> k = a \/ k ∈ ks.
Proof.
  induction ks as [|b ks IH]; simpl.
  - rewrite list_elem_of_singleton. split; [tauto | intros [?|H]; [assumption | inversion H]].
  - destruct (digitsValue a <=? digitsValue b)%Z.
    + rewrite elem_of_cons. reflexivity.
    + rewrite !elem_of_cons, IH. tauto.
Qed.

Lemma elem_of_sorted (k : jsstring) (ks : list jsstring) :
  k ∈ fold_right Row.insertIndex [] ks <-> k ∈ ks.
Proof.
  induction ks as [|a ks IH]; simpl; [reflexivity|].
  rewrite elem_of_insertIndex, elem_of_cons, IH. reflexivity.
Qed.

(** [Object.keys] lists exactly the property names of the record. *)
Lemma elem_of_keys (row : Row.t) (k : jsstring) :
  k ∈ Row.keys row <-> k ∈ List.map fst row.
Proof.
  unfold Row.keys. rewrite elem_of_app, elem_of_sorted.
  rewrite !list_elem_of_In, !filter_In, <- !list_elem_of_In, elem_of_distinct.
  destruct (Row.arrayIndex k); simpl; intuition congruence.
Qed.

Lemma distinct_NoDup (l : list jsstring) : NoDup l -> distinct l = l.
Proof.
  induction 1 as [|a l Ha Hnd IH]; simpl; [reflexivity|].
  rewrite IH. f_equal. clear IH Hnd.
  induction l as [|b l IH]; simpl; [reflexivity|].
  apply not_elem_of_cons in Ha as [Hne Ha].
  assert (E : streq a b = false) by (apply streq_neq; congruence).
  rewrite E. simpl. f_equal. apply IH, Ha.
Qed.

Lemma length_insertIndex (k : jsstring) (ks : list jsstring) :
  length (Row.insertIndex k ks) = S (length ks).
Proof.
  induction ks as [|a ks IH]; simpl; [reflexivity|].
  destruct (digitsValue k <=? digitsValue a)%Z; simpl; [reflexivity | rewrite IH; reflexivity].
Qed.

Lemma length_partition (p : jsstring -> bool) (l : list jsstring) :
  (length (List.filter p l) + length (List.filter (fun k => negb (p k)) l))%nat = length l.
Proof.
  induction l as [|a l IH]; simpl; [reflexivity|].
  destruct (p a); simpl; lia.
Qed.

(** [Object.keys] lists every property name once. *)
Lemma length_keys (row : Row.t) :
  NoDup (List.map fst row) -> length (Row.keys row) = length row.
Proof.
  intros H. unfold Row.keys. rewrite (distinct_NoDup _ H), length_app.
  assert (Hsorted : forall ks, length (fold_right Row.insertIndex [] ks) = length ks).
  { induction ks as [|a ks IH]; simpl; [reflexivity|].
    rewrite length_insertIndex, IH. reflexivity. }
  rewrite Hsorted, length_partition, length_map. reflexivity.
Qed.

(** Against C5 as stated: a first record whose [Name] field is present but
    empty passes the check; what is tested is the presence of the column. *)
Lemma empty_Name_is_accepted :
  parseShopifyCSV (Complete [ [ (lit "Name", []); (lit "Email", lit "a@b.c") ] ] [])
  = Resolved [ [ (lit "Name", []); (lit "Email", lit "a@b.c") ] ]
  /\ truthy (Row.get [ (lit "Name", []); (lit "Email", lit "a@b.c") ] (lit "Name")) = false.
Proof. split; reflexivity. Qed.

(** C5, as the code has it. When the tokenizer completes, [parseShopifyCSV]
    rejects in exactly two cases, whatever warnings the tokenizer gave: no
    record at all, with the message 檔案內容為空, and a first record without a
    [Name] property (an empty [Name] passes, and no other record is looked
    at); the second message is the fixed text followed by the property names
    of that first record, joined by a comma and a space, and these are all
    the header names the record has. An error of the tokenizer is passed on
    as rejection. Whenever the promise resolves, it resolves with the records
    as they came, and the run goes through aggregation and projection and
    yields their result. *)
Theorem parseShopifyCSV_checks :
  (forall rows errors,
     parseShopifyCSV (Complete rows errors) =
       match rows with
       | [] => Rejected (lit "檔案內容為空")
       | row0 :: _ =>
         if decide (lit "Name" ∈ List.map fst row0) then Resolved rows
         else Rejected (lit "CSV 格式錯誤: 找不到 " ++ [34%N] ++ lit "Name" ++ [34%N]
                        ++ lit " 欄位。請確認上傳的是 Shopify 訂單匯出檔。" ++ [10%N]
                        ++ lit "偵測到的欄位: " ++ join (lit ", ") (Row.keys row0))
       end)
  /\ (forall message, parseShopifyCSV (Error message) = Rejected message)
  /\ (forall rows errors,
        (exists message, parseShopifyCSV (Complete rows errors) = Rejected message)
        <-> rows = [] \/ (exists row0 rest, rows = row0 :: rest
                                           /\ lit "Name" ∉ List.map fst row0))
  /\ (forall row0 k, k ∈ Row.keys row0 <-> k ∈ List.map fst row0)
  /\ (forall row0, NoDup (List.map fst row0) ->
                   length (Row.keys row0) = length row0)
  /\ parseShopifyCSV (Complete [ [ (lit "Order", lit "#1"); (lit "Email", lit "a@b.c") ] ] [])
     = Rejected (lit "CSV 格式錯誤: 找不到 " ++ [34%N] ++ lit "Name" ++ [34%N]
                 ++ lit " 欄位。請確認上傳的是 Shopify 訂單匯出檔。" ++ [10%N]
                 ++ lit "偵測到的欄位: Order, Email")
  /\ parseShopifyCSV
       (Complete [ [ (lit "Email", lit "a@b.c") ];
                   [ (lit "Email", lit "d@e.f"); (lit "Name", lit "#2") ] ] [])
     = Rejected (lit "CSV 格式錯誤: 找不到 " ++ [34%N] ++ lit "Name" ++ [34%N]
                 ++ lit " 欄位。請確認上傳的是 Shopify 訂單匯出檔。" ++ [10%N]
                 ++ lit "偵測到的欄位: Email")
  /\ (forall ev rows,
        parseShopifyCSV ev = Resolved rows ->
        (exists errors, ev = Complete rows errors)
        /\ convert ev = Converted (processOrders rows) (convertToMovaRows (processOrders rows)))
  /\ (forall ev, (exists message, convert ev = Failed message)
                 <-> (exists message, parseShopifyCSV ev = Rejected message)).
Proof.
  split.
  { intros [|row0 rest] errors; simpl; [reflexivity|].
    destruct (Row.has row0 (lit "Name")) eqn:E; simpl.
    - apply has_iff_key in E. destruct (decide _); [reflexivity | contradiction].
    - destruct (decide _) as [H|_]; [|reflexivity].
      apply has_iff_key in H. congruence. }
  split; [reflexivity|].
  split.
  { intros [|row0 rest] errors; simpl.
    - split; [left; reflexivity | eexists; reflexivity].
    - destruct (Row.has row0 (lit "Name")) eqn:E; simpl.
      + split.
        * intros [m H]; discriminate.
        * intros [H|(r & l & [= <- <-] & H)]; [discriminate|].
          exfalso. apply H, has_iff_key, E.
      + split; [|eexists; reflexivity].
        intros _. right. exists row0, rest. split; [reflexivity|].
        rewrite <- has_iff_key, E. discriminate. }
  split; [exact elem_of_keys|].
  split; [exact length_keys|].
  split; [vm_compute; reflexivity|].
  split; [vm_compute; reflexivity|].
  split.
  { intros ev rows H. split.
    - destruct ev as [data errors|message]; [|discriminate].
      exists errors. simpl in H. destruct data as [|row0 rest]; [discriminate|].
      destruct (Row.has row0 (lit "Name")); [|discriminate].
      injection H as <-. reflexivity.
    - unfold convert. rewrite H. reflexivity. }
  intros ev. unfold convert.
  destruct (parseShopifyCSV ev) as [rows|m].
  - split; intros [m H]; discriminate.
  - split; intros _; eexists; reflexivity.
Qed.

(** ** Further properties of the normalizers *)

Lemma forallb_filter_self (p : N -> bool) (s : jsstring) :
  forallb p (List.filter p s) = true.
Proof.
  induction s as [|c s IH]; simpl; [reflexivity|].
  destruct (p c) eqn:E; simpl; [rewrite E|]; exact IH.
Qed.

Lemma filter_all (p : N -> bool) (s : jsstring) :
  forallb p s = true -> List.filter p s = s.
Proof.
  induction s as [|c s IH]; simpl; [reflexivity|].
  intros H. apply andb_true_iff in H as [Hc Hs]. rewrite Hc, IH by exact Hs. reflexivity.
Qed.

Lemma forallb_drop (p : N -> bool) (n : nat) (s : jsstring) :
  forallb p s = true -> forallb p (drop n s) = true.
Proof.
  revert s; induction n as [|n IH]; intros [|c s] H; simpl; try assumption.
  apply IH. simpl in H. apply andb_true_iff in H as [_ H]. exact H.
Qed.

(** What [cleanPhone] returns, seen through the specification's wording. *)
Lemma cleanPhone_cases (phone : option jsstring) :
  cleanPhone phone = phoneAsSpecified (default [] phone).
Proof.
  destruct phone as [phone|]; [apply cleanPhone_refines | reflexivity].
Qed.

Lemma phoneAsSpecified_digits (phone : jsstring) :
  forallb isDigit (phoneAsSpecified phone) = true.
Proof.
  unfold phoneAsSpecified.
  pose proof (forallb_filter_self isDigit phone) as Hd.
  set (digits := List.filter isDigit phone) in *.
  destruct (startsWith digits (lit "886")).
  - simpl. apply forallb_drop, Hd.
  - destruct ((length digits =? 9)%nat && startsWith digits (lit "9")); simpl; exact Hd.
Qed.

Lemma phoneAsSpecified_normal (phone : jsstring) :
  startsWith (phoneAsSpecified phone) (lit "886") = false
  /\ (length (phoneAsSpecified phone) =? 9)%nat
     && startsWith (phoneAsSpecified phone) (lit "9") = false.
Proof.
  unfold phoneAsSpecified.
  set (digits := List.filter isDigit phone).
  destruct (startsWith digits (lit "886")) eqn:E886.
  - split; [reflexivity|]. rewrite andb_comm. reflexivity.
  - destruct ((length digits =? 9)%nat && startsWith digits (lit "9")) eqn:E9.
    + split; [reflexivity|]. rewrite andb_comm. reflexivity.
    + split; assumption.
Qed.

(** X1. Whatever the input, the normalized phone holds ASCII digits only. *)
Theorem cleanPhone_digits_only (phone : option jsstring) :
  forallb isDigit (cleanPhone phone) = true.
Proof. rewrite cleanPhone_cases. apply phoneAsSpecified_digits. Qed.

(** X2. The normalized phone never begins with the country code 886 and is
    never a nine-digit number that begins with 9: both shapes have been
    rewritten to begin with 0. *)
Theorem cleanPhone_normal_form (phone : option jsstring) :
  startsWith (cleanPhone phone) (lit "886") = false
  /\ ~ (length (cleanPhone phone) = 9%nat
        /\ startsWith (cleanPhone phone) (lit "9") = true).
Proof.
  rewrite cleanPhone_cases.
  destruct (phoneAsSpecified_normal (default [] phone)) as [H886 H9].
  split; [exact H886|].
  intros [Hlen Hs]. rewrite Hs, Hlen in H9. discriminate.
Qed.

(** X3. Normalizing a normalized phone changes nothing. *)
Theorem cleanPhone_idempotent (phone : option jsstring) :
  cleanPhone (Some (cleanPhone phone)) = cleanPhone phone.
Proof.
  rewrite (cleanPhone_refines (cleanPhone phone)), (cleanPhone_cases phone).
  destruct (phoneAsSpecified_normal (default [] phone)) as [H886 H9].
  unfold phoneAsSpecified at 1. cbv zeta.
  rewrite (filter_all _ _ (phoneAsSpecified_digits (default [] phone))).
  rewrite H886, H9. reflexivity.
Qed.

Lemma dropWhile_all (p : N -> bool) (s : jsstring) :
  forallb p s = true -> dropWhile p s = [].
Proof.
  induction s as [|c s IH]; simpl; [reflexivity|].
  intros H. apply andb_true_iff in H as [Hc Hs]. rewrite Hc. apply IH, Hs.
Qed.

Lemma trim_spaces (s : jsstring) : forallb isWhiteSpace s = true -> trim s = [].
Proof.
  intros H. unfold trim, trimEnd, trimStart. rewrite (dropWhile_all _ _ H). reflexivity.
Qed.

Lemma dropWhile_snoc (p : N -> bool) (s : jsstring) (c : N) :
  p c = false -> exists s', dropWhile p (s ++ [c]) = s' ++ [c].
Proof.
  intros Hc. induction s as [|a s IH]; simpl.
  - rewrite Hc. exists []. reflexivity.
  - destruct (p a); [exact IH | exists (a :: s); reflexivity].
Qed.

Lemma trim_begins (s : jsstring) : beginsWithSpace (trim s) = false.
Proof.
  unfold trim, trimEnd, trimStart.
  pose proof (dropWhile_head isWhiteSpace s) as Hhd.
  destruct (dropWhile isWhiteSpace s) as [|c t]; [reflexivity|].
  simpl rev. destruct (dropWhile_snoc isWhiteSpace (rev t) c Hhd) as [s' ->].
  rewrite rev_app_distr. simpl. exact Hhd.
Qed.

Lemma trim_ends (s : jsstring) : endsWithSpace (trim s) = false.
Proof.
  unfold endsWithSpace, trim, trimEnd. rewrite rev_involutive.
  pose proof (dropWhile_head isWhiteSpace (rev (trimStart s))) as Hhd.
  destruct (dropWhile isWhiteSpace (rev (trimStart s))); [reflexivity | exact Hhd].
Qed.

(** X4. A shipping street that holds white space only gives the empty
    address, whatever the billing street is: the fallback looks at the field
    before trimming. *)
Theorem formatAddress_blank_shipping (row : Row.t) (street : jsstring)
    (Hget : Row.get row (lit "Shipping Street") = Some street)
    (Hne : street <> [])
    (Hblank : forallb isWhiteSpace street = true) :
  formatAddress row = [].
Proof.
  unfold formatAddress. rewrite Hget.
  destruct street as [|c s]; [contradiction|]. apply trim_spaces, Hblank.
Qed.

Lemma formatAddress_blank_shipping_witness :
  formatAddress [ (lit "Shipping Street", lit "   "); (lit "Billing Street", lit "2 Side St") ]
  = [].
Proof.
  apply (formatAddress_blank_shipping
           [ (lit "Shipping Street", lit "   "); (lit "Billing Street", lit "2 Side St") ]
           (lit "   ")).
  - reflexivity.
  - discriminate.
  - reflexivity.
Defined.

(** X5. When the shipping street is present and not empty, the address
    neither begins nor ends with white space. *)
Theorem formatAddress_shipping_trimmed (row : Row.t)
    (Hship : truthy (Row.get row (lit "Shipping Street")) = true) :
  beginsWithSpace (formatAddress row) = false
  /\ endsWithSpace (formatAddress row) = false.
Proof.
  unfold formatAddress.
  destruct (Row.get row (lit "Shipping Street")) as [[|c s]|]; try discriminate.
  split; [apply trim_begins | apply trim_ends].
Qed.

Lemma formatAddress_shipping_trimmed_witness :
  beginsWithSpace (formatAddress [ (lit "Shipping Street", lit "  1 Main St ") ]) = false
  /\ endsWithSpace (formatAddress [ (lit "Shipping Street", lit "  1 Main St ") ]) = false.
Proof.
  apply (formatAddress_shipping_trimmed [ (lit "Shipping Street", lit "  1 Main St ") ]).
  reflexivity.
Defined.

Lemma forallb_dropWhile (p q : N -> bool) (s : jsstring) :
  forallb p s = true -> forallb p (dropWhile q s) = true.
Proof.
  induction s as [|c s IH]; simpl; [reflexivity|].
  intros H. destruct (q c); [|exact H].
  apply andb_true_iff in H as [_ H]. apply IH, H.
Qed.

Lemma forallb_rev_of (p : N -> bool) (s : jsstring) :
  forallb p s = true -> forallb p (rev s) = true.
Proof.
  rewrite !forallb_forall. intros H c Hc. apply H, in_rev, Hc.
Qed.

Lemma forallb_trim (p : N -> bool) (s : jsstring) :
  forallb p s = true -> forallb p (trim s) = true.
Proof.
  intros H. unfold trim, trimEnd, trimStart.
  apply forallb_rev_of, forallb_dropWhile, forallb_rev_of, forallb_dropWhile, H.
Qed.

Lemma trimmedGroup_class (key : jsstring) (C : N -> bool) (s : jsstring) :
  forallb C (trimmedGroup (matchPair key C s)) = true.
Proof.
  destruct (matchPair key C s) as [g|] eqn:E; simpl; [|reflexivity].
  destruct (matchPair_sound _ _ _ _ E) as (_ & rest & _ & spaces & after & _ & _ & _ & Hall & _).
  apply forallb_trim, Hall.
Qed.

Lemma trimmedGroup_trimmed (m : option jsstring) :
  beginsWithSpace (trimmedGroup m) = false /\ endsWithSpace (trimmedGroup m) = false.
Proof.
  destruct m as [g|]; simpl; [|split; reflexivity].
  split; [apply trim_begins | apply trim_ends].
Qed.

(** X6. Whatever the note blob holds, the extracted tax id consists of ASCII
    digits only, and the extracted company name holds no line break and
    neither begins nor ends with white space. *)
Theorem parseInvoiceInfo_shapes (attrs : option jsstring) :
  forallb isDigit (fst (parseInvoiceInfo attrs)) = true
  /\ forallb notLineBreak (snd (parseInvoiceInfo attrs)) = true
  /\ beginsWithSpace (snd (parseInvoiceInfo attrs)) = false
  /\ endsWithSpace (snd (parseInvoiceInfo attrs)) = false.
Proof.
  destruct attrs as [attrs|]; [|repeat split; reflexivity].
  rewrite parseInvoiceInfo_cases.
  destruct (decide _); [|repeat split; reflexivity].
  cbn [fst snd].
  split; [apply trimmedGroup_class|].
  split; [apply trimmedGroup_class|].
  apply trimmedGroup_trimmed.
Qed.

(** ** Further properties of the aggregation *)

Lemma processOrders_ids (rows : list Row.t) :
  List.map orderId (processOrders rows) = orderIds rows.
Proof.
  rewrite processOrders_spec, List.map_map.
  rewrite <- (map_id (orderIds rows)) at 2. apply map_ext.
  intros k. rewrite applyRules_orderId. reflexivity.
Qed.

Lemma rowId_Some (r : Row.t) (k : jsstring) :
  rowId r = Some k <-> Row.get r (lit "Name") = Some k /\ k <> [].
Proof.
  unfold rowId. destruct (Row.get r (lit "Name")) as [[|c s]|]; split.
  - discriminate.
  - intros [[= <-] H]. contradiction.
  - intros [= <-]. split; [reflexivity | discriminate].
  - intros [[= <-] _]. reflexivity.
  - discriminate.
  - intros [H _]. discriminate.
Qed.

(** X7. The identifiers of the returned orders are pairwise distinct, none is
    empty, and they are exactly the non-empty [Name] values met in the
    input. *)
Theorem processOrders_distinct_ids (rows : list Row.t) :
  NoDup (List.map orderId (processOrders rows))
  /\ Forall (fun o => orderId o <> []) (processOrders rows)
  /\ (forall k, k ∈ List.map orderId (processOrders rows)
                <-> exists r, r ∈ rows /\ Row.get r (lit "Name") = Some k /\ k <> []).
Proof.
  split; [rewrite processOrders_ids; apply NoDup_distinct|].
  assert (Hin : forall k, k ∈ orderIds rows
                          <-> exists r, r ∈ rows /\ Row.get r (lit "Name") = Some k /\ k <> []).
  { intros k. unfold orderIds. rewrite elem_of_distinct, list_elem_of_omap.
    split; intros (r & Hr & H); exists r; (split; [exact Hr|]); apply rowId_Some, H. }
  split.
  - apply List.Forall_forall. intros o Ho.
    assert (Hk : orderId o ∈ orderIds rows).
    { rewrite <- processOrders_ids. apply list_elem_of_In, in_map, Ho. }
    apply Hin in Hk as (r & _ & _ & Hne). exact Hne.
  - intros k. rewrite processOrders_ids. apply Hin.
Qed.

Lemma finalized_has_items (k : jsstring) (rows : list Row.t) :
  items (applyRules (aggregated k rows)) <> [].
Proof.
  rewrite applyRules_items. cbn [aggregated items set_items].
  destruct (itemsOf k rows) as [|item l]; [|discriminate].
  vm_compute. discriminate.
Qed.

(** X8. Every returned order holds at least one item: an order without real
    line items sums to 0 and so receives the addon. No order is exported
    without a row. *)
Theorem processOrders_orders_have_items (rows : list Row.t) :
  Forall (fun o => items o <> [] /\ orderRows o <> []) (processOrders rows).
Proof.
  rewrite processOrders_spec. apply List.Forall_map, List.Forall_forall.
  intros k _.
  pose proof (finalized_has_items k rows) as H.
  split; [exact H|].
  unfold orderRows. destruct (items (applyRules (aggregated k rows))); [contradiction | discriminate].
Qed.

Lemma itemsOf_snoc (k : jsstring) (rows : list Row.t) (r : Row.t) :
  itemsOf k (rows ++ [r])
  = itemsOf k rows ++ (if decide (rowId r = Some k) then option_list (rowItem r) else []).
Proof.
  unfold itemsOf. rewrite rowsOf_snoc, omap_app.
  destruct (decide _); [|reflexivity].
  simpl. destruct (rowItem r); reflexivity.
Qed.

(** Appending [more] to the items filed under one key of a duplicate-free
    list of keys appends it, up to order, to all the items. *)
Lemma concat_append_at (f : jsstring -> list ProcessedItem) (k : jsstring)
    (more : list ProcessedItem) (ks : list jsstring) :
  NoDup ks ->
  concat (List.map (fun k' => f k' ++ (if decide (k' = k) then more else [])) ks)
  ≡ₚ concat (List.map f ks) ++ (if decide (k ∈ ks) then more else []).
Proof.
  induction 1 as [|a ks Ha Hnd IH]; simpl.
  - destruct (decide (k ∈ [])) as [H|_]; [inversion H | reflexivity].
  - rewrite IH. destruct (decide (a = k)) as [->|Hne].
    + destruct (decide (k ∈ ks)); [contradiction|].
      destruct (decide (k ∈ k :: ks)) as [_|H]; [|exfalso; apply H; left].
      rewrite app_nil_r, <- !app_assoc. apply Permutation_app_head, Permutation_app_comm.
    + rewrite app_nil_r, <- app_assoc.
      destruct (decide (k ∈ ks)) as [Hin|Hnin].
      * destruct (decide (k ∈ a :: ks)) as [_|H]; [reflexivity|].
        exfalso; apply H; right; exact Hin.
      * destruct (decide (k ∈ a :: ks)) as [H|_]; [|reflexivity].
        apply elem_of_cons in H as [H|H]; [congruence | contradiction].
Qed.

Lemma identifiedItems_snoc (rows : list Row.t) (r : Row.t) :
  identifiedItems (rows ++ [r])
  = identifiedItems rows
    ++ match rowId r with
       | Some _ => option_list (rowItem r)
       | None => []
       end.
Proof.
  unfold identifiedItems. rewrite omap_app. simpl.
  destruct (rowId r); [destruct (rowItem r)|]; reflexivity.
Qed.

(** The items filed under the identifiers are, up to order, the items of the
    rows that name an order. *)
Lemma filed_items (rows : list Row.t) :
  concat (List.map (fun k => itemsOf k rows) (orderIds rows)) ≡ₚ identifiedItems rows.
Proof.
  induction rows as [|r rows IH] using rev_ind; [reflexivity|].
  rewrite identifiedItems_snoc, orderIds_snoc.
  destruct (rowId r) as [k|] eqn:Hid.
  - assert (Hsnoc : forall ks,
              List.map (fun k' => itemsOf k' (rows ++ [r])) ks
              = List.map (fun k' => itemsOf k' rows
                                      ++ (if decide (k' = k) then option_list (rowItem r)
                                          else [])) ks).
    { intros ks. apply map_ext. intros k'. rewrite itemsOf_snoc, Hid.
      destruct (decide (k' = k)) as [->|Hne'];
        destruct (decide (Some k = Some _)) as [E|Hne]; try reflexivity; congruence. }
    destruct (decide (k ∈ orderIds rows)) as [Hin|Hnin].
    + rewrite Hsnoc, concat_append_at by apply NoDup_distinct.
      destruct (decide (k ∈ orderIds rows)); [|contradiction].
      rewrite IH. reflexivity.
    + rewrite Hsnoc, concat_append_at.
      * destruct (decide (k ∈ orderIds rows ++ [k])) as [_|H];
          [|exfalso; apply H, elem_of_app; right; left].
        rewrite map_app, concat_app. simpl. rewrite app_nil_r.
        assert (Hk : itemsOf k rows = []).
        { unfold itemsOf. rewrite rowsOf_empty; [reflexivity|].
          intros H. apply Hnin, elem_of_distinct, H. }
        rewrite Hk, app_nil_r, IH. reflexivity.
      * apply NoDup_app. split; [apply NoDup_distinct|].
        split; [|apply NoDup_singleton].
        intros k' Hk' Hk. apply list_elem_of_singleton in Hk. subst k'. contradiction.
  - rewrite app_nil_r, <- IH. apply Permutation_refl'.
    f_equal. apply map_ext. intros k'. rewrite itemsOf_snoc, Hid.
    destruct (decide _); [discriminate | apply app_nil_r].
Qed.

Lemma concat_realItems (rows : list Row.t) :
  concat (List.map realItems (processOrders rows))
  = concat (List.map (fun k => itemsOf k rows) (orderIds rows)).
Proof.
  rewrite processOrders_spec, List.map_map. f_equal. apply map_ext.
  intros k. apply realItems_finalized.
Qed.

(** X9. No line item is lost, duplicated or invented: the real items of the
    returned orders, taken together, are a rearrangement of the line items of
    the rows that name an order. *)
Theorem processOrders_conserves_items (rows : list Row.t) :
  concat (List.map realItems (processOrders rows)) ≡ₚ identifiedItems rows.
Proof. rewrite concat_realItems. apply filed_items. Qed.

Lemma rowItem_ext (r r' : Row.t) :
  Forall (fun col => Row.get r' col = Row.get r col) lineItemColumns ->
  rowItem r' = rowItem r.
Proof.
  intros H. unfold lineItemColumns in H.
  apply Forall_cons in H as [Hname H]. apply Forall_cons in H as [Hsku H].
  apply Forall_cons in H as [Hqty H]. apply Forall_cons in H as [Hprice _].
  unfold rowItem, lineItem. rewrite Hname, Hsku, Hqty, Hprice. reflexivity.
Qed.

Lemma rowId_ext (r r' : Row.t) :
  Row.get r' (lit "Name") = Row.get r (lit "Name") -> rowId r' = rowId r.
Proof. intros H. unfold rowId. rewrite H. reflexivity. Qed.

Lemma rowsOf_middle (k : jsstring) (rows1 rows2 : list Row.t) (r : Row.t) :
  rowsOf k (rows1 ++ r :: rows2)
  = rowsOf k rows1 ++ (if decide (rowId r = Some k) then [r] else []) ++ rowsOf k rows2.
Proof.
  unfold rowsOf. rewrite List.filter_app. simpl.
  destruct (decide (rowId r = Some k)) as [H|H].
  - rewrite bool_decide_eq_true_2 by assumption. reflexivity.
  - rewrite bool_decide_eq_false_2 by assumption. reflexivity.
Qed.

(** Replacing a row of an order already met by a row with the same
    identifier and the same line item leaves every aggregated order as it
    was. *)
Lemma aggregated_replace_repeat (k : jsstring) (rows1 rows2 : list Row.t) (r r' : Row.t) :
  rowId r' = rowId r -> rowItem r' = rowItem r ->
  (forall k0, rowId r = Some k0 -> k0 ∈ omap rowId rows1) ->
  aggregated k (rows1 ++ r' :: rows2) = aggregated k (rows1 ++ r :: rows2).
Proof.
  intros Hid Hitem Hseen. unfold aggregated, itemsOf.
  rewrite !rowsOf_middle, Hid.
  destruct (decide (rowId r = Some k)) as [Hk|Hk]; [|reflexivity].
  rewrite !head_app_nonempty by (apply rowsOf_nonempty, Hseen, Hk).
  rewrite !omap_app. simpl. rewrite Hitem. reflexivity.
Qed.

(** X10. The order-level columns of a repeat row are not read: when an order
    has been met, replacing a later row of it by a row with the same [Name]
    and the same four line-item columns gives the same orders, whatever the
    other columns of the two rows hold. *)
Theorem repeat_row_order_columns_ignored (rows1 rows2 : list Row.t) (r r' : Row.t)
    (Hid : truthy (Row.get r (lit "Name")) = true)
    (Hseen : exists r0, r0 ∈ rows1 /\ Row.get r0 (lit "Name") = Row.get r (lit "Name"))
    (Hname : Row.get r' (lit "Name") = Row.get r (lit "Name"))
    (Hcols : Forall (fun col => Row.get r' col = Row.get r col) lineItemColumns) :
  processOrders (rows1 ++ r' :: rows2) = processOrders (rows1 ++ r :: rows2).
Proof.
  pose proof (rowId_ext _ _ Hname) as Hrid.
  pose proof (rowItem_ext _ _ Hcols) as Hitem.
  assert (Hin : forall k0, rowId r = Some k0 -> k0 ∈ omap rowId rows1).
  { intros k0 Hk0. destruct Hseen as (r0 & Hr0 & Hn0).
    apply list_elem_of_omap. exists r0. split; [exact Hr0|].
    rewrite <- Hk0. apply rowId_ext, Hn0. }
  rewrite !processOrders_spec.
  assert (Hids : orderIds (rows1 ++ r' :: rows2) = orderIds (rows1 ++ r :: rows2)).
  { unfold orderIds. rewrite !omap_app. simpl. rewrite Hrid. reflexivity. }
  rewrite Hids. apply map_ext. intros k.
  rewrite (aggregated_replace_repeat k rows1 rows2 r r' Hrid Hitem Hin). reflexivity.
Qed.

Lemma repeat_row_order_columns_ignored_witness :
  processOrders ([firstRow] ++ repeatRow' :: []) = processOrders ([firstRow] ++ repeatRow :: []).
Proof.
  apply (repeat_row_order_columns_ignored [firstRow] [] repeatRow repeatRow').
  - reflexivity.
  - exists firstRow. split; [left | reflexivity].
  - reflexivity.
  - repeat constructor.
Defined.

Lemma distinct_nil (l : list jsstring) : distinct l = [] <-> l = [].
Proof. destruct l; simpl; split; congruence. Qed.

Lemma omap_rowId_nil (rows : list Row.t) :
  omap rowId rows = [] <-> forall r, r ∈ rows -> rowId r = None.
Proof.
  induction rows as [|r rows IH]; simpl.
  - split; [intros _ r H; inversion H | reflexivity].
  - destruct (rowId r) as [k|] eqn:E.
    + split; [discriminate|]. intros H.
      specialize (H r (list_elem_of_here _ _)). congruence.
    + rewrite IH. split.
      * intros H r' Hr'. apply elem_of_cons in Hr' as [->|Hr']; [exact E | apply H, Hr'].
      * intros H r' Hr'. apply H. right. exact Hr'.
Qed.

Lemma processOrders_nil (rows : list Row.t) :
  processOrders rows = []
  <-> forall r, r ∈ rows -> truthy (Row.get r (lit "Name")) = false.
Proof.
  rewrite processOrders_spec.
  assert (Hmap : List.map (fun k => applyRules (aggregated k rows)) (orderIds rows) = []
                 <-> orderIds rows = []).
  { destruct (orderIds rows); simpl; split; congruence. }
  rewrite Hmap. unfold orderIds. rewrite distinct_nil, omap_rowId_nil.
  split; intros H r Hr; apply rowId_None, H, Hr.
Qed.

(** X11. [processOrders] returns no order exactly when no row has a
    non-empty [Name]; in particular for the empty input, and then the export
    is the header row alone. *)
Theorem processOrders_empty_iff (rows : list Row.t) :
  (processOrders rows = []
   <-> forall r, r ∈ rows -> truthy (Row.get r (lit "Name")) = false)
  /\ (processOrders rows = [] -> convertToMovaRows (processOrders rows) = [MOVA_HEADERS]).
Proof.
  split; [apply processOrders_nil|]. intros ->. reflexivity.
Qed.

(** ** Not-a-number in the sum *)

Lemma add_nan_l (y : float) : (nan + y)%float = nan.
Proof. rewrite <- (SF2Prim_Prim2SF (nan + y)), add_spec. reflexivity. Qed.

Lemma add_nan_r (x : float) : (x + nan)%float = nan.
Proof.
  rewrite <- (SF2Prim_Prim2SF (x + nan)), add_spec.
  change (Prim2SF nan) with S754_nan. destruct (Prim2SF x); reflexivity.
Qed.

Lemma mul_nan_l (y : float) : (nan * y)%float = nan.
Proof. rewrite <- (SF2Prim_Prim2SF (nan * y)), mul_spec. reflexivity. Qed.

Lemma mul_nan_r (x : float) : (x * nan)%float = nan.
Proof.
  rewrite <- (SF2Prim_Prim2SF (x * nan)), mul_spec.
  change (Prim2SF nan) with S754_nan. destruct (Prim2SF x); reflexivity.
Qed.

Lemma sum_from_nan (its : list ProcessedItem) :
  fold_left (fun sum item => (sum + price item * quantity item)%float) its nan = nan.
Proof.
  induction its as [|item its IH]; simpl; [reflexivity|].
  rewrite add_nan_l. exact IH.
Qed.

Lemma itemsTotal_nan (its : list ProcessedItem) (item : ProcessedItem) :
  item ∈ its -> price item = nan \/ quantity item = nan -> itemsTotal its = nan.
Proof.
  intros Hin Hnan. apply list_elem_of_split in Hin as (l1 & l2 & ->).
  unfold itemsTotal. rewrite fold_left_app. simpl.
  assert (E : (price item * quantity item)%float = nan).
  { destruct Hnan as [-> | ->]; [apply mul_nan_l | apply mul_nan_r]. }
  rewrite E, add_nan_r. apply sum_from_nan.
Qed.

Lemma nan_distinct (x : float) : is_nan x = false -> x <> nan.
Proof. intros H E. rewrite E in H. vm_compute in H. discriminate. Qed.

(** X12. One item whose price or quantity is not a number makes the stored
    subtotal of its order not a number, and the order receives no shipping
    addon: its items are its real line items alone. *)
Theorem nan_item_suppresses_addon (rows : list Row.t) (o : ProcessedOrder)
    (item : ProcessedItem)
    (Ho : o ∈ processOrders rows)
    (Hitem : item ∈ items o)
    (Hnan : price item = nan \/ quantity item = nan) :
  subtotal o = nan
  /\ items o = itemsOf (orderId o) rows
  /\ List.filter isAddon (items o) = [].
Proof.
  rewrite processOrders_spec in Ho.
  apply list_elem_of_fmap in Ho as (k & -> & _).
  rewrite applyRules_orderId, applyRules_subtotal.
  rewrite applyRules_items in Hitem |- *.
  cbn [aggregated items set_items orderId] in *.
  assert (Hreal : item ∈ itemsOf k rows).
  { apply elem_of_app in Hitem as [H|H]; [exact H|].
    exfalso. destruct (itemsTotal (itemsOf k rows) <? 1000)%float; [|inversion H].
    apply list_elem_of_singleton in H. subst item.
    destruct Hnan as [H|H]; revert H; apply nan_distinct; reflexivity. }
  rewrite (itemsTotal_nan _ _ Hreal Hnan).
  change (nan <? 1000)%float with false. rewrite app_nil_r.
  split; [reflexivity|]. split; [reflexivity|]. apply filter_addon_itemsOf.
Qed.

Lemma nan_item_suppresses_addon_witness :
  let o := applyRules (aggregated (lit "#1001") [unparseableQuantityRow]) in
  subtotal o = nan
  /\ items o = itemsOf (orderId o) [unparseableQuantityRow]
  /\ List.filter isAddon (items o) = [].
Proof.
  apply (nan_item_suppresses_addon [unparseableQuantityRow]
           (applyRules (aggregated (lit "#1001") [unparseableQuantityRow]))
           (lineItem unparseableQuantityRow (lit "Widget"))).
  - vm_compute. left.
  - vm_compute. left.
  - right. reflexivity.
Defined.

(** ** Further properties of the export *)

Lemma applyRules_order_fields (o : ProcessedOrder) :
  carrierId (applyRules o) = carrierId o
  /\ email (applyRules o) = email o
  /\ customer (applyRules o) = customer o
  /\ paymentRef (applyRules o) = paymentRef o.
Proof.
  unfold applyRules. cbn [subtotal set_subtotal].
  case_threshold; repeat split; reflexivity.
Qed.

Lemma or_lit_nonempty (v : option jsstring) (d : jsstring) : d <> [] -> or_lit v d <> [].
Proof. destruct v as [[|c s]|]; simpl; intros H; try exact H. discriminate. Qed.

(** The fields of a returned order that the properties below read, in terms
    of the first row of the order. *)
Lemma finalized_fields (k : jsstring) (rows : list Row.t) :
  exists r0,
    let o := applyRules (aggregated k rows) in
    orderId o = k
    /\ email o = Row.get r0 (lit "Email")
    /\ carrierId o = or_lit (Row.get r0 (lit "Email")) []
    /\ Customer.name (customer o) <> [].
Proof.
  exists (default [] (head (rowsOf k rows))). cbv zeta.
  destruct (applyRules_order_fields (aggregated k rows)) as (-> & -> & -> & _).
  rewrite applyRules_orderId.
  cbn [aggregated set_items orderId email carrierId customer newOrder Customer.name].
  repeat split. apply or_lit_nonempty. discriminate.
Qed.

(** X13. In every exported row of the returned orders, position 21 (carrier)
    and position 28 (e-mail) come from the same [Email] field of the order's
    first row: position 28 holds it as it is, [undefined] when the column is
    missing, and position 21 holds the same text, empty when it is missing. *)
Theorem export_carrier_is_email (rows : list Row.t) :
  Forall (fun o =>
            exists r0,
              head (rowsOf (orderId o) rows) = Some r0
              /\ forall item,
                   movaRow o item !! 28%nat
                   = Some (match Row.get r0 (lit "Email") with
                           | Some address => CStr address
                           | None => CUndefined
                           end)
                   /\ movaRow o item !! 21%nat
                      = Some (CStr (match Row.get r0 (lit "Email") with
                                    | Some address => address
                                    | None => []
                                    end)))
         (processOrders rows).
Proof.
  rewrite processOrders_spec. apply List.Forall_forall. intros o Ho.
  apply in_map_iff in Ho as (k & <- & Hk).
  apply list_elem_of_In in Hk. unfold orderIds in Hk. rewrite elem_of_distinct in Hk.
  pose proof (rowsOf_nonempty _ _ Hk) as Hne.
  rewrite applyRules_orderId. cbn [aggregated set_items orderId newOrder].
  destruct (rowsOf k rows) as [|r0 l] eqn:E; [contradiction|].
  exists r0. split; [reflexivity|]. intros item.
  change (movaRow (applyRules (aggregated k rows)) item !! 28%nat)
    with (Some (cellOf (email (applyRules (aggregated k rows))))).
  change (movaRow (applyRules (aggregated k rows)) item !! 21%nat)
    with (Some (CStr (carrierId (applyRules (aggregated k rows))))).
  destruct (applyRules_order_fields (aggregated k rows)) as (-> & -> & _).
  unfold aggregated. rewrite E.
  cbn [set_items email carrierId newOrder default from_option id head].
  unfold cellOf.
  destruct (Row.get r0 (lit "Email")) as [[|c s]|]; split; reflexivity.
Qed.

(** X14. In every exported row of the returned orders, the channel order
    identifier (position 0), the recipient (position 1) and the order
    identifier (position 26) are strings that are not empty. *)
Theorem export_identifiers_not_blank (rows : list Row.t) :
  Forall (fun o =>
            forall item,
              exists channelId recipient,
                movaRow o item !! 0%nat = Some (CStr channelId) /\ channelId <> []
                /\ movaRow o item !! 1%nat = Some (CStr recipient) /\ recipient <> []
                /\ movaRow o item !! 26%nat = Some (CStr (orderId o)) /\ orderId o <> [])
         (processOrders rows).
Proof.
  apply List.Forall_forall. intros o Ho item.
  assert (Hid : orderId o <> []).
  { assert (Hk : orderId o ∈ orderIds rows)
      by (rewrite <- processOrders_ids; apply list_elem_of_In, in_map, Ho).
    apply elem_of_distinct, list_elem_of_omap in Hk as (r & _ & Hr).
    apply rowId_Some in Hr as [_ Hne]. exact Hne. }
  assert (Hname : Customer.name (customer o) <> []).
  { rewrite processOrders_spec in Ho. apply in_map_iff in Ho as (k & <- & _).
    destruct (finalized_fields k rows) as (r0 & _ & _ & _ & H). exact H. }
  exists (match paymentRef o with [] => orderId o | ref => ref end),
         (Customer.name (customer o)).
  split; [reflexivity|]. split.
  { destruct (paymentRef o); [exact Hid | discriminate]. }
  split; [reflexivity|]. split; [exact Hname|].
  split; [reflexivity | exact Hid].
Qed.

(** ** The upload and download handlers *)

Lemma length_convertToMovaRows (orders : list ProcessedOrder) :
  length (convertToMovaRows orders) = S (itemCount orders).
Proof.
  rewrite convertToMovaRows_rows. simpl. rewrite length_concat_orderRows. reflexivity.
Qed.

Lemma itemCount_split (orders : list ProcessedOrder) :
  Forall (fun o => items o
                   = realItems o ++ (if (subtotal o <? 1000)%float then [shippingAddon] else []))
         orders ->
  itemCount orders
  = (length (concat (List.map realItems orders)) + length (belowThreshold orders))%nat.
Proof.
  unfold itemCount, belowThreshold.
  induction 1 as [|o orders Ho _ IH]; simpl; [reflexivity|].
  rewrite IH, length_app. rewrite Ho at 1. rewrite length_app.
  destruct (subtotal o <? 1000)%float; simpl; lia.
Qed.

Lemma finalized_items_shape (rows : list Row.t) :
  Forall (fun o => items o
                   = realItems o ++ (if (subtotal o <? 1000)%float then [shippingAddon] else []))
         (processOrders rows).
Proof.
  rewrite processOrders_spec. apply List.Forall_map, List.Forall_forall.
  intros k _. rewrite realItems_finalized, applyRules_subtotal, applyRules_items.
  reflexivity.
Qed.

Lemma itemCount_processOrders (rows : list Row.t) :
  itemCount (processOrders rows)
  = (length (identifiedItems rows) + length (belowThreshold (processOrders rows)))%nat.
Proof.
  rewrite (itemCount_split _ (finalized_items_shape rows)), concat_realItems.
  rewrite (Permutation_length (filed_items rows)). reflexivity.
Qed.

Lemma itemCount_at_least (orders : list ProcessedOrder) :
  Forall (fun o => items o <> []) orders -> length orders <= itemCount orders.
Proof.
  unfold itemCount. induction 1 as [|o orders Ho _ IH]; simpl; [lia|].
  destruct (items o); [contradiction | simpl; lia].
Qed.

Lemma convert_resolved (ev : ParseEvent) (rows : list Row.t) :
  parseShopifyCSV ev = Resolved rows ->
  convert ev = Converted (processOrders rows) (convertToMovaRows (processOrders rows)).
Proof. intros H. unfold convert. rewrite H. reflexivity. Qed.

Lemma convert_cases (ev : ParseEvent) :
  (exists rows, parseShopifyCSV ev = Resolved rows
                /\ convert ev = Converted (processOrders rows)
                                          (convertToMovaRows (processOrders rows)))
  \/ (exists message, convert ev = Failed message /\ message <> []).
Proof.
  unfold convert. destruct (parseShopifyCSV ev) as [rows|message].
  - left. exists rows. split; reflexivity.
  - right. destruct message as [|c m]; eexists; (split; [reflexivity | discriminate]).
Qed.

Lemma matchesDateToken_nonempty (token : jsstring) :
  matchesDateToken token = true -> token <> [].
Proof. intros H ->. discriminate. Qed.

(** X15. The date token is always a string of ASCII digits, whatever is
    typed, and it passes the check of the upload exactly when it has four to
    eight of them; typing changes no other part of the state. *)
Theorem handleDateTokenChange_digits (value : jsstring) (st : State) :
  let st' := handleDateTokenChange value st in
  forallb isDigit (dateToken st') = true
  /\ (matchesDateToken (dateToken st') = true <-> 4 <= length (dateToken st') <= 8)
  /\ error st' = error st /\ stats st' = stats st
  /\ processedData st' = processedData st /\ isProcessing st' = isProcessing st.
Proof.
  cbv zeta. cbn [handleDateTokenChange dateToken error stats processedData isProcessing].
  split; [apply forallb_filter_self|].
  split; [|repeat split; reflexivity].
  unfold matchesDateToken. rewrite forallb_filter_self. cbn [andb].
  rewrite andb_true_iff, !Nat.leb_le. reflexivity.
Qed.

(** X16. An upload of a file ends in exactly one of two ways. Either an error
    message that is not empty is set and no statistics or data are kept, not
    even those of an earlier upload; or the token is valid, the parse
    resolved, no error is set and the data are the projection of the
    aggregated rows. The token itself is never changed. *)
Theorem handleFileUpload_outcome (ev : ParseEvent) (st : State) :
  let st' := handleFileUpload (Some ev) st in
  dateToken st' = dateToken st
  /\ ((exists message, error st' = Some message /\ message <> []
                       /\ stats st' = None /\ processedData st' = None)
      \/ (exists rows, matchesDateToken (dateToken st) = true
                       /\ parseShopifyCSV ev = Resolved rows
                       /\ error st' = None /\ is_Some (stats st')
                       /\ processedData st' = Some (convertToMovaRows (processOrders rows)))).
Proof.
  cbv zeta. unfold handleFileUpload.
  destruct (dateToken st) as [|c token] eqn:Etok.
  { split; [reflexivity|]. left. exists missingDateMessage.
    repeat split. discriminate. }
  destruct (matchesDateToken (c :: token)) eqn:Ematch; cbn [negb].
  2:{ split; [reflexivity|]. left. exists badDateMessage. repeat split. discriminate. }
  destruct (convert_cases ev) as [(rows & Hparse & ->)|(message & -> & Hne)].
  - split; [reflexivity|]. right. exists rows. repeat split; try assumption.
    eexists; reflexivity.
  - split; [reflexivity|]. left. exists message. repeat split. exact Hne.
Qed.

(** X17. After an upload with a valid token whose parse resolves, the
    statistics show the number of distinct order identifiers and the number
    of exported item rows, which is the number of line items of the rows that
    name an order plus the number of orders below the threshold; the second
    is the length of the data less the header row and is never smaller than
    the first. *)
Theorem handleFileUpload_stats (ev : ParseEvent) (st : State) (rows : list Row.t)
    (Htoken : matchesDateToken (dateToken st) = true)
    (Hparse : parseShopifyCSV ev = Resolved rows) :
  let st' := handleFileUpload (Some ev) st in
  let shown := (length (identifiedItems rows)
                + length (belowThreshold (processOrders rows)))%nat in
  stats st' = Some {| Stats.orders := Z.of_nat (length (orderIds rows));
                      Stats.items := Z.of_nat shown |}
  /\ processedData st' = Some (convertToMovaRows (processOrders rows))
  /\ length (convertToMovaRows (processOrders rows)) = S shown
  /\ length (orderIds rows) <= shown.
Proof.
  cbv zeta. unfold handleFileUpload.
  destruct (dateToken st) as [|c token] eqn:Etok; [discriminate|].
  rewrite Htoken. cbn [negb]. rewrite (convert_resolved _ _ Hparse).
  cbn [stats processedData].
  pose proof (length_convertToMovaRows (processOrders rows)) as Hlen.
  pose proof (itemCount_processOrders rows) as Hcount.
  assert (Horders : length (processOrders rows) = length (orderIds rows)).
  { rewrite <- processOrders_ids, length_map. reflexivity. }
  assert (Hle : length (processOrders rows) <= itemCount (processOrders rows)).
  { apply itemCount_at_least. rewrite processOrders_spec.
    apply List.Forall_map, List.Forall_forall. intros k _. apply finalized_has_items. }
  split.
  { rewrite Hlen, Horders, <- Hcount. do 2 f_equal. lia. }
  split; [reflexivity|].
  split; [rewrite Hlen, Hcount; reflexivity | lia].
Qed.

Lemma handleFileUpload_stats_witness :
  let ev := Complete [firstRow; repeatRow] [] in
  let st' := handleFileUpload (Some ev) datedState in
  let shown := (length (identifiedItems [firstRow; repeatRow])
                + length (belowThreshold (processOrders [firstRow; repeatRow])))%nat in
  stats st' = Some {| Stats.orders := Z.of_nat (length (orderIds [firstRow; repeatRow]));
                      Stats.items := Z.of_nat shown |}
  /\ processedData st' = Some (convertToMovaRows (processOrders [firstRow; repeatRow]))
  /\ length (convertToMovaRows (processOrders [firstRow; repeatRow])) = S shown
  /\ length (orderIds [firstRow; repeatRow]) <= shown.
Proof.
  apply (handleFileUpload_stats (Complete [firstRow; repeatRow] []) datedState
           [firstRow; repeatRow]).
  - reflexivity.
  - reflexivity.
Defined.

(** X18. The download uses the token as it stands when the button is
    pressed, without the check of the upload: with data present, retyping
    the date gives the file name [MOVA訂單_<digits typed>.xlsx] and the same
    data, and no download at all when no digit is typed. *)
Theorem handleDownload_uses_current_token (st : State) (value : jsstring)
    (data : list MovaExcelRow)
    (Hdata : processedData st = Some data) :
  handleDownload (handleDateTokenChange value st)
  = match List.filter isDigit value with
    | [] => None
    | token => Some (lit "MOVA訂單_" ++ token ++ lit ".xlsx", data)
    end.
Proof.
  unfold handleDownload. cbn [handleDateTokenChange processedData dateToken].
  rewrite Hdata. destruct (List.filter isDigit value); reflexivity.
Qed.

Lemma handleDownload_uses_current_token_witness :
  handleDownload (handleDateTokenChange (lit "7") uploadedState)
  = match List.filter isDigit (lit "7") with
    | [] => None
    | token =>
      Some (lit "MOVA訂單_" ++ token ++ lit ".xlsx",
            convertToMovaRows (processOrders [firstRow; repeatRow]))
    end.
Proof.
  apply (handleDownload_uses_current_token uploadedState (lit "7")
           (convertToMovaRows (processOrders [firstRow; repeatRow]))).
  reflexivity.
Defined.

(** X19. A file that has a [Name] column but names no order passes the
    boundary checks and converts without error to no order and the header
    row alone. *)
Theorem header_only_conversion (row0 : Row.t) (rest : list Row.t) (errors : list jsstring)
    (Hcolumn : Row.has row0 (lit "Name") = true)
    (Hunnamed : forall r, r ∈ row0 :: rest -> truthy (Row.get r (lit "Name")) = false) :
  convert (Complete (row0 :: rest) errors) = Converted [] [MOVA_HEADERS].
Proof.
  assert (Hparse : parseShopifyCSV (Complete (row0 :: rest) errors) = Resolved (row0 :: rest)).
  { simpl. rewrite Hcolumn. reflexivity. }
  rewrite (convert_resolved _ _ Hparse).
  apply processOrders_nil in Hunnamed. rewrite Hunnamed. reflexivity.
Qed.

Lemma header_only_conversion_witness :
  convert (Complete unnamedRows []) = Converted [] [MOVA_HEADERS].
Proof.
  apply (header_only_conversion
           [ (lit "Name", []); (lit "Lineitem name", lit "Widget") ]
           [ [ (lit "Name", []); (lit "Lineitem name", lit "Gadget") ] ] []).
  - reflexivity.
  - intros r Hr. apply elem_of_cons in Hr as [->|Hr]; [reflexivity|].
    apply list_elem_of_singleton in Hr. subst r. reflexivity.
Defined.

(** ** Growing the input *)

Lemma orderIds_prefix (rows more : list Row.t) :
  orderIds rows `prefix_of` orderIds (rows ++ more).
Proof.
  induction more as [|r more IH] using rev_ind.
  - rewrite app_nil_r. reflexivity.
  - rewrite app_assoc, orderIds_snoc.
    destruct (rowId r) as [k|]; [|exact IH].
    destruct (decide _); [exact IH | apply prefix_app_r, IH].
Qed.

Lemma rowsOf_app (k : jsstring) (rows more : list Row.t) :
  rowsOf k (rows ++ more) = rowsOf k rows ++ rowsOf k more.
Proof. unfold rowsOf. apply List.filter_app. Qed.

Lemma aggregated_grows (k : jsstring) (rows more : list Row.t) :
  k ∈ orderIds rows ->
  itemsOf k (rows ++ more) = itemsOf k rows ++ itemsOf k more
  /\ customer (aggregated k (rows ++ more)) = customer (aggregated k rows)
  /\ originalSubtotal (aggregated k (rows ++ more)) = originalSubtotal (aggregated k rows).
Proof.
  intros Hk. unfold orderIds in Hk. rewrite elem_of_distinct in Hk.
  unfold aggregated, itemsOf. rewrite rowsOf_app, omap_app.
  rewrite head_app_nonempty by (apply rowsOf_nonempty, Hk).
  repeat split.
Qed.

(** X20. Rows added at the end of the input never remove, reorder or rewrite
    what the earlier rows gave: the identifiers of the orders stay a prefix
    of the new identifiers, and every earlier order is still returned with
    the same customer and original subtotal, its earlier real items first. *)
Theorem processOrders_grows (rows more : list Row.t) :
  List.map orderId (processOrders rows)
    `prefix_of` List.map orderId (processOrders (rows ++ more))
  /\ Forall (fun o =>
               exists o', o' ∈ processOrders (rows ++ more)
                          /\ orderId o' = orderId o
                          /\ customer o' = customer o
                          /\ originalSubtotal o' = originalSubtotal o
                          /\ realItems o `prefix_of` realItems o')
            (processOrders rows).
Proof.
  split; [rewrite !processOrders_ids; apply orderIds_prefix|].
  rewrite (processOrders_spec rows). apply List.Forall_map, List.Forall_forall.
  intros k Hk. apply list_elem_of_In in Hk.
  exists (applyRules (aggregated k (rows ++ more))).
  destruct (aggregated_grows k rows more Hk) as (Hitems & Hcust & Horig).
  split.
  { rewrite processOrders_spec. apply list_elem_of_fmap. exists k. split; [reflexivity|].
    destruct (orderIds_prefix rows more) as [ks ->]. apply elem_of_app. left. exact Hk. }
  split; [rewrite !applyRules_orderId; reflexivity|].
  destruct (applyRules_order_fields (aggregated k (rows ++ more))) as (_ & _ & -> & _).
  destruct (applyRules_order_fields (aggregated k rows)) as (_ & _ & -> & _).
  destruct (applyRules_carried (aggregated k (rows ++ more))) as (-> & _).
  destruct (applyRules_carried (aggregated k rows)) as (-> & _).
  split; [exact Hcust|]. split; [exact Horig|].
  rewrite !realItems_finalized, Hitems. apply prefix_app_r. reflexivity.
Qed.

(** ** Digits in the export *)

Lemma invoice_taxId_digits (attrs : option jsstring) :
  forallb isDigit (fst (parseInvoiceInfo attrs)) = true.
Proof.
  destruct attrs as [attrs|]; [|reflexivity].
  rewrite parseInvoiceInfo_cases. destruct (decide _); [|reflexivity].
  apply trimmedGroup_class.
Qed.

Lemma or_lit_nil_forallb (p : N -> bool) (s : jsstring) :
  forallb p s = true -> forallb p (or_lit (Some s) []) = true.
Proof. destruct s; simpl; intros H; [reflexivity | exact H]. Qed.

(** X21. In every exported row of the returned orders, the phone (position 2)
    and the invoice tax id (position 24) are strings of ASCII digits,
    possibly empty. *)
Theorem export_digit_columns (rows : list Row.t) :
  Forall (fun o =>
            forall item,
              exists phone taxNumber,
                movaRow o item !! 2%nat = Some (CStr phone)
                /\ forallb isDigit phone = true
                /\ movaRow o item !! 24%nat = Some (CStr taxNumber)
                /\ forallb isDigit taxNumber = true)
         (processOrders rows).
Proof.
  rewrite processOrders_spec. apply List.Forall_map, List.Forall_forall.
  intros k _ item.
  set (o := applyRules (aggregated k rows)).
  exists (Customer.phone (customer o)), (or_lit (taxId o) []).
  split; [reflexivity|]. split.
  { unfold o. destruct (applyRules_order_fields (aggregated k rows)) as (_ & _ & -> & _).
    cbn [aggregated set_items customer newOrder Customer.phone].
    rewrite cleanPhone_cases. apply phoneAsSpecified_digits. }
  split; [reflexivity|].
  assert (Htax : taxId o = taxId (aggregated k rows)).
  { unfold o, applyRules. cbn [subtotal set_subtotal]. case_threshold; reflexivity. }
  rewrite Htax. cbn [aggregated set_items taxId newOrder].
  apply or_lit_nil_forallb, invoice_taxId_digits.
Qed.

(** X22. The export of two lists of orders one after the other is the export
    of the first followed by the item rows of the export of the second: the
    header row comes once, and the rows of an order do not depend on the
    orders around it. *)
Theorem convertToMovaRows_concatenates (first second : list ProcessedOrder) :
  convertToMovaRows (first ++ second)
  = convertToMovaRows first ++ tail (convertToMovaRows second)
  /\ head (convertToMovaRows (first ++ second)) = Some MOVA_HEADERS
  /\ tail (convertToMovaRows (first ++ second))
     = tail (convertToMovaRows first) ++ tail (convertToMovaRows second).
Proof.
  rewrite convertToMovaRows_app. split; [reflexivity|].
  rewrite (convertToMovaRows_rows first). split; reflexivity.
Qed.
